(** * Weather skill: a shallow embedding of [WeatherSkill] (src/__init__.py)

    The skill is a request/response resolver: a handler parses the intent
    message, fetches a weather report, builds dialogs and speaks them.  The
    handlers are embedded as computations in a state-and-exception monad over
    the skill object; the collaborators the skill only consumes (vocabulary
    matching, the weather provider, number extraction, geocoding) are fields of
    a [World] record that every handler takes as an argument. *)

From Stdlib Require Import ZArith QArith.
From stdpp Require Import base option list strings gmap.

Local Open Scope Z_scope.
Local Open Scope string_scope.
Local Open Scope list_scope.

(** ** Data model *)

(** Timeframe constants imported from [weather_helpers]. *)
Inductive Timeframe := CURRENT | HOURLY | DAILY | WEEKLY.

(** Python exceptions the skill raises, catches or lets through.  An
    [HTTPError] carries the status code of its response, when it has a
    response. *)
Inductive PyExc :=
| ValueError
| IndexError
| AttributeError
| HTTPError (response : option Z)
| LocationNotFoundError
| OtherException (name : string).

Inductive Result (A : Type) :=
| Ok (a : A)
| Raise (e : PyExc).
Arguments Ok {A} a.
Arguments Raise {A} e.

(** [config_core["location"]["coordinate"]]; degrees in fixed point, so that
    Python's truthiness of a float is [≠ 0]. *)
Record Coordinate := { latitude : Z; longitude : Z }.

(** The keys of [self.config_core] the skill reads or writes. *)
Record CoreConfig := {
  cfg_lang : string;
  cfg_system_unit : string;
  cfg_coordinate : Coordinate;
  cfg_time_format : string
}.

(** Modelled from the spec: [WeatherConfig] of weather_helpers, the effective
    configuration of one request.  It wraps the core configuration it was
    built from and carries the request's own [settings] mapping, which is the
    target of the per-request unit override. *)
Record WeatherConfig := {
  core_config : CoreConfig;
  wc_settings : gmap string string
}.

(** [message.data] of an intent message. *)
Record Message := {
  utterance : string;
  unit_slot : option string;
  lat_lon : option (Z * Z);
  location : option string
}.

(** Modelled from the spec: the query descriptor [WeatherIntent] of
    weather_helpers. *)
Record WeatherIntent := {
  i_utterance : string;
  i_location : option string;
  timeframe : Timeframe;
  config : WeatherConfig;
  relative_day : option Z;
  relative_hour : option Z
}.

Record Condition := {
  category : string;
  description : string;
  code : Z
}.

(** A weather snapshot (current, hourly or daily). *)
Record Weather := {
  date_time : Z;
  condition : Condition;
  temperature : Z;
  temperature_high : Z;
  temperature_low : Z
}.

Record WeatherReport := {
  current : Weather;
  hourly : list Weather;
  daily : list Weather
}.

(** A dialog object: the dialog class instantiated and the build method
    called on it, with their arguments.  The template name and fill data are
    functions of these in weather_helpers. *)
Inductive Dialog :=
| CurrentDialog_weather (intent_data : WeatherIntent) (weather : Weather)
| CurrentDialog_high_low_temperature (intent_data : WeatherIntent) (weather : Weather)
| HourlyDialog_weather (intent_data : WeatherIntent) (weather : Weather)
| DailyDialog_weather (intent_data : WeatherIntent) (weather : Weather)
| WeeklyDialog_condition (intent_data : WeatherIntent) (forecast : list Weather)
    (condition : string)
| WeeklyDialog_temperature (intent_data : WeatherIntent) (forecast : list Weather).

(** What one call of [self.speak_dialog] says: a phrase named directly in the
    skill, or the rendering of a dialog object. *)
Inductive Phrase :=
| Template (name : string) (data : list (string * option string))
| OfDialog (dialog : Dialog).

(** One call of [self.speak_dialog(name, data, wait)]. *)
Record Speech := { phrase : Phrase; wait : bool }.

(** The flat mapping returned by the home-screen API. *)
Record HomescreenReport := {
  weather_temp : Z;
  high_temperature : Z;
  low_temperature : Z;
  weather_code : Z;
  condition_category : string;
  condition_description : string;
  system_unit : string
}.

(** A message emitted on the bus: its type and, for the weather response,
    the report it carries. *)
Record BusMessage := { msg_type : string; report : option HomescreenReport }.

(** What the skill puts on a screen or on the enclosure's display. *)
Inductive Display :=
| gui_clear
| gui_show_page (page : string)
| enclosure_deactivate_mouth_events
| enclosure_weather_display (code : Z) (temperature : Z).

(** What [extract_number] of lingua_franca returns: [False] when the text
    has no number, else an int or a float. *)
Inductive PyNumber :=
| PFalse
| PInt (z : Z)
| PFloat (q : Q).

(** Python's [int()]: truncation toward zero; [int(False)] is [0]. *)
Definition py_int (n : PyNumber) : Z :=
  match n with
  | PFalse => 0
  | PInt z => z
  | PFloat q => Z.quot (Qnum q) (Z.pos (Qden q))
  end.

(** The skill object: stored configuration and settings, the locale of the
    request being handled, and the effects the handlers leave behind, each in
    the order they happened. *)
Record Skill := {
  config_core : CoreConfig;
  settings : gmap string string;
  lang : string;
  gui_connected : bool;
  spoken : list Speech;
  bus : list BusMessage;
  display : list Display;
  log : list string
}.

(** The collaborators outside the repository. *)
Record World := {
  (** [self.voc_match(text, voc)] in the language [lang]. *)
  voc_match : string -> string -> string -> bool;
  (** [get_report(config)]: the provider fetch. *)
  get_report : WeatherConfig -> Result WeatherReport;
  (** [extract_number(text, lang=lang)]. *)
  extract_number : string -> string -> PyNumber;
  (** The geocoder: whether a location text names a place. *)
  geolocate : string -> bool;
  (** The date-time parser: the relative day and hour of an utterance. *)
  extract_relative_day : string -> option Z;
  extract_relative_hour : string -> option Z
}.

(** ** The state-and-exception monad of the handlers *)

Definition M (A : Type) : Type := Skill -> Result A * Skill.

Definition ret {A} (a : A) : M A := fun s => (Ok a, s).

Definition raise {A} (e : PyExc) : M A := fun s => (Raise e, s).

Definition bind {A B} (m : M A) (k : A -> M B) : M B :=
  fun s =>
    match m s with
    | (Ok a, s') => k a s'
    | (Raise e, s') => (Raise e, s')
    end.

(** [try: m], handing the outcome to the [except] clauses. *)
Definition attempt {A} (m : M A) : M (Result A) :=
  fun s => let (r, s') := m s in (Ok r, s').

Definition lift {A} (r : Result A) : M A := fun s => (r, s).

Definition get : M Skill := fun s => (Ok s, s).

Notation "'do' x <- m ; k" := (bind m (fun x => k))
  (at level 10, x name, m at level 100, k at level 200).
Notation "m ;; k" := (bind m (fun _ => k))
  (at level 100, k at level 200, right associativity).

(** Where a handler leaves the skill, and what it returned or raised. *)
Definition state_after {A} (m : M A) (s : Skill) : Skill := snd (m s).
Definition outcome {A} (m : M A) (s : Skill) : Result A := fst (m s).

(** ** Effects *)

Definition set_spoken (l : list Speech) (s : Skill) : Skill :=
  {| config_core := config_core s; settings := settings s; lang := lang s;
     gui_connected := gui_connected s; spoken := l; bus := bus s;
     display := display s; log := log s |}.

Definition set_bus (l : list BusMessage) (s : Skill) : Skill :=
  {| config_core := config_core s; settings := settings s; lang := lang s;
     gui_connected := gui_connected s; spoken := spoken s; bus := l;
     display := display s; log := log s |}.

Definition set_display (l : list Display) (s : Skill) : Skill :=
  {| config_core := config_core s; settings := settings s; lang := lang s;
     gui_connected := gui_connected s; spoken := spoken s; bus := bus s;
     display := l; log := log s |}.

Definition set_log (l : list string) (s : Skill) : Skill :=
  {| config_core := config_core s; settings := settings s; lang := lang s;
     gui_connected := gui_connected s; spoken := spoken s; bus := bus s;
     display := display s; log := l |}.

Definition set_config_core (c : CoreConfig) (s : Skill) : Skill :=
  {| config_core := c; settings := settings s; lang := lang s;
     gui_connected := gui_connected s; spoken := spoken s; bus := bus s;
     display := display s; log := log s |}.

(** [self.speak_dialog(name, data)]: [wait] defaults to [False]. *)
Definition speak_dialog (name : string) (data : list (string * option string)) : M () :=
  fun s => (Ok (), set_spoken (spoken s ++ [{| phrase := Template name data; wait := false |}]) s).

(** [self.bus.emit(Message(msg_type, data))]. *)
Definition bus_emit (m : BusMessage) : M () :=
  fun s => (Ok (), set_bus (bus s ++ [m]) s).

(** A call on [self.gui] or [self.enclosure]. *)
Definition show (d : Display) : M () :=
  fun s => (Ok (), set_display (display s ++ [d]) s).

(** [self.log.exception(text)] and [self.log.info(text)]. *)
Definition log_line (text : string) : M () :=
  fun s => (Ok (), set_log (log s ++ [text]) s).

(** [_speak_weather]: speak the dialog and block until it is said. *)
Definition _speak_weather (dialog : Dialog) : M () :=
  log_line "Speaking dialog" ;;
  fun s => (Ok (), set_spoken (spoken s ++ [{| phrase := OfDialog dialog; wait := true |}]) s).

(** ** Python values *)

(** Truthiness of a string: non-empty. *)
Definition truthy (text : string) : bool := negb (String.eqb text "").

(** Truthiness of an optional coordinate: present and non-zero. *)
Definition truthy_num (x : option Z) : bool :=
  match x with
  | Some z => negb (Z.eqb z 0)
  | None => false
  end.

(** [l[start:stop]]: negative bounds count from the end, and bounds outside
    the list are clipped. *)
Definition py_slice {A} (l : list A) (start stop : Z) : list A :=
  let n := Z.of_nat (length l) in
  let clip i := if (i <? 0)%Z then Z.max 0 (i + n) else Z.min i n in
  take (Z.to_nat (clip stop - clip start)) (drop (Z.to_nat (clip start)) l).

(** [l[i]]: a negative index counts from the end; outside the list it raises
    [IndexError]. *)
Definition py_getitem {A} (l : list A) (i : Z) : Result A :=
  let n := Z.of_nat (length l) in
  let j := if (i <? 0)%Z then i + n else i in
  if (j <? 0)%Z then Raise IndexError
  else match l !! Z.to_nat j with
       | Some x => Ok x
       | None => Raise IndexError
       end.

(** Iteration over [set(l)].  Python fixes what a set holds, not the order in
    which it yields it: an iteration order is any function that returns each
    element of [l] once. *)
Class SetOrder := {
  set_iter : list string -> list string;
  set_iter_NoDup : forall l, NoDup (set_iter l);
  set_iter_elem_of : forall l x, x ∈ set_iter l <-> x ∈ l
}.

(** The distinct elements of a list, each at its first occurrence. *)
Fixpoint first_occurrences_from (seen l : list string) : list string :=
  match l with
  | [] => []
  | x :: l' =>
      if decide (x ∈ seen) then first_occurrences_from seen l'
      else x :: first_occurrences_from (x :: seen) l'
  end.

Definition first_occurrences (l : list string) : list string :=
  first_occurrences_from [] l.

(** CPython keeps a set of fewer than five elements in a table of eight
    slots and yields the slots in ascending order; as long as the elements
    hash to different slots, each sits in slot [hash land 7].  [slot_place]
    and [slot_order] order the elements by that slot; elements that share a
    slot keep their order of insertion. *)
Definition slot (hash : string -> Z) (x : string) : Z := Z.land (hash x) 7.

Fixpoint slot_place (hash : string -> Z) (x : string) (table : list string) : list string :=
  match table with
  | [] => [x]
  | y :: table' =>
      if (slot hash x <? slot hash y)%Z then x :: table
      else y :: slot_place hash x table'
  end.

(** [set.add(x)]. *)
Definition slot_insert (hash : string -> Z) (x : string) (table : list string) : list string :=
  if decide (x ∈ table) then table else slot_place hash x table.

Definition slot_order (hash : string -> Z) (l : list string) : list string :=
  foldl (fun table x => slot_insert hash x table) [] l.

(** ** weather_helpers *)

Definition set_timeframe (t : Timeframe) (i : WeatherIntent) : WeatherIntent :=
  {| i_utterance := i_utterance i; i_location := i_location i; timeframe := t;
     config := config i; relative_day := relative_day i;
     relative_hour := relative_hour i |}.

(** [intent_data.config.settings[key] = value]. *)
Definition set_config_setting (key value : string) (i : WeatherIntent) : WeatherIntent :=
  {| i_utterance := i_utterance i; i_location := i_location i;
     timeframe := timeframe i;
     config := {| core_config := core_config (config i);
                  wc_settings := <[key := value]> (wc_settings (config i)) |};
     relative_day := relative_day i; relative_hour := relative_hour i |}.

(** Modelled from the spec: [WeatherConfig.scale] of weather_helpers, the
    active unit system: the request's unit when one is set, else the system
    unit of the configuration. *)
Definition scale (c : WeatherConfig) : string :=
  match wc_settings c !! "units" with
  | Some u => u
  | None => cfg_system_unit (core_config c)
  end.

(** Modelled from the spec: [WeatherReport.get_forecast_for_multiple_days] of
    weather_helpers.  The daily sequence starts with today; a request for more
    than the seven days after it fails, else the next [days] days are
    returned. *)
Definition get_forecast_for_multiple_days (weather : WeatherReport) (days : Z)
  : Result (list Weather) :=
  if (7 <? days)%Z then Raise IndexError
  else Ok (py_slice (daily weather) 1 (days + 1)).

(** Modelled from the spec: [WeatherReport.get_forecast_for_hour] of
    weather_helpers.  A relative-hour offset beyond the 48-hour window fails;
    otherwise the hourly snapshot at that offset is returned (offset 0 when
    the request names no hour). *)
Definition get_forecast_for_hour (weather : WeatherReport) (intent_data : WeatherIntent)
  : Result Weather :=
  let offset := default 0 (relative_hour intent_data) in
  if (48 <? offset)%Z then Raise IndexError
  else py_getitem (hourly weather) offset.

(** ** The skill *)

Section WeatherSkill.

Context (W : World) {order : SetOrder}.

(** Modelled from the spec: the constructor [WeatherIntent(message, config)]
    of weather_helpers.  The descriptor starts with the current timeframe;
    a location text that names no place is a malformed query, raised as
    [ValueError]. *)
Definition WeatherIntent_new (message : Message) (weather_config : WeatherConfig)
  : Result WeatherIntent :=
  let intent_data :=
    {| i_utterance := utterance message; i_location := location message;
       timeframe := CURRENT; config := weather_config;
       relative_day := extract_relative_day W (utterance message);
       relative_hour := extract_relative_hour W (utterance message) |} in
  match location message with
  | Some place => if geolocate W place then Ok intent_data else Raise ValueError
  | None => Ok intent_data
  end.

(** What [_get_weather_config] leaves in the dict [cfg].  [cfg] is
    [self.config_core] itself, not a copy of it. *)
Definition resolve_config (s : Skill) (message : option Message) : CoreConfig :=
  let cfg := config_core s in
  let system_unit :=
    match settings s !! "units" with
    | Some units =>
        if truthy units && negb (String.eqb units "default") then units
        else cfg_system_unit cfg
    | None => cfg_system_unit cfg
    end in
  let position :=
    match message with
    | Some m => lat_lon m
    | None => None
    end in
  let latitude := option_map fst position in
  let longitude := option_map snd position in
  let coordinate :=
    if truthy_num latitude && truthy_num longitude
    then {| latitude := default 0 latitude; longitude := default 0 longitude |}
    else cfg_coordinate cfg in
  {| cfg_lang := lang s; cfg_system_unit := system_unit;
     cfg_coordinate := coordinate; cfg_time_format := cfg_time_format cfg |}.

Definition _get_weather_config (message : option Message) : M WeatherConfig :=
  fun s =>
    let cfg := resolve_config s message in
    (Ok {| core_config := cfg; wc_settings := ∅ |}, set_config_core cfg s).

Definition _get_intent_data (message : Message) : M (option WeatherIntent) :=
  do r <- attempt (do weather_config <- _get_weather_config (Some message);
                   lift (WeatherIntent_new message weather_config));
  match r with
  | Raise ValueError => speak_dialog "cant-get-forecast" [] ;; ret None
  | Raise e => raise e
  | Ok intent_data =>
      do s <- get;
      let voc := voc_match W (lang s) in
      let unit := unit_slot message in
      let intent_data :=
        if voc (i_utterance intent_data) "relative-time" then
          set_timeframe HOURLY intent_data
        else if voc (i_utterance intent_data) "later" then
          set_timeframe HOURLY intent_data
        else if voc (i_utterance intent_data) "relative-day" then
          if negb (voc (i_utterance intent_data) "today") then
            set_timeframe DAILY intent_data
          else intent_data
        else intent_data in
      let intent_data :=
        match unit with
        | Some u =>
            if truthy u && voc u "fahrenheit" then
              set_config_setting "units" "imperial" intent_data
            else if truthy u && voc u "celsius" then
              set_config_setting "units" "metric" intent_data
            else intent_data
        | None => intent_data
        end in
      ret (Some intent_data)
  end.

(** [exception.response.status_code] raises [AttributeError] when the error
    has no response. *)
Definition _handle_api_error (response : option Z) : M () :=
  match response with
  | None => raise AttributeError
  | Some status_code =>
      if Z.eqb status_code 401 then
        bus_emit {| msg_type := "mycroft.not.paired"; report := None |}
      else speak_dialog "cant-get-forecast" []
  end.

Definition _get_weather (intent_data : option WeatherIntent) : M (option WeatherReport) :=
  match intent_data with
  | None => ret None
  | Some intent_data =>
      match get_report W (config intent_data) with
      | Ok weather => ret (Some weather)
      | Raise (HTTPError response) =>
          log_line "Weather API failure" ;;
          _handle_api_error response ;;
          ret None
      | Raise LocationNotFoundError =>
          log_line "City not found." ;;
          speak_dialog "location-not-found" [("location", i_location intent_data)] ;;
          ret None
      | Raise _ =>
          log_line "Unexpected error retrieving weather" ;;
          speak_dialog "cant-get-forecast" [] ;;
          ret None
      end
  end.

(** The for loop [for dialog in dialogs: self._speak_weather(dialog)]. *)
Fixpoint speak_all (dialogs : list Dialog) : M () :=
  match dialogs with
  | [] => ret ()
  | dialog :: dialogs' => _speak_weather dialog ;; speak_all dialogs'
  end.

Definition _display_current_conditions (weather : WeatherReport) : M () :=
  do s <- get;
  if gui_connected s then
    log_line "date" ;;
    show (gui_show_page "CurrentWeather.qml")
  else
    show enclosure_deactivate_mouth_events ;;
    show (enclosure_weather_display (code (condition (current weather)))
            (temperature (current weather))).

Definition _display_hourly_forecast (weather : WeatherReport) : M () :=
  show (gui_show_page "HourlyForecast.qml").

Definition _display_multi_day_forecast (forecast : list Weather) : M () :=
  show (gui_show_page "DailyForecast.qml").

(** The two [sleep(5)] calls between the screens are left out: they change
    neither the skill nor what it emits. *)
Definition _report_current_weather (message : Message) : M () :=
  do intent_data <- _get_intent_data message;
  do weather <- _get_weather intent_data;
  match weather with
  | Some weather =>
      match intent_data with
      | None => raise AttributeError
      | Some intent_data =>
          _display_current_conditions weather ;;
          _speak_weather (CurrentDialog_weather intent_data (current weather)) ;;
          _speak_weather
            (CurrentDialog_high_low_temperature intent_data (current weather)) ;;
          do s <- get;
          if gui_connected s then
            _display_hourly_forecast weather ;;
            _display_multi_day_forecast (py_slice (daily weather) 1 5)
          else ret ()
      end
  | None => ret ()
  end.

Definition _report_one_hour_weather (message : Message) : M () :=
  do intent_data <- _get_intent_data message;
  do weather <- _get_weather intent_data;
  match weather with
  | Some weather =>
      match intent_data with
      | None => raise AttributeError
      | Some intent_data =>
          match get_forecast_for_hour weather intent_data with
          | Raise IndexError => speak_dialog "forty-eight-hours-available" []
          | Raise e => raise e
          | Ok forecast => _speak_weather (HourlyDialog_weather intent_data forecast)
          end
      end
  | None => ret ()
  end.

Definition _build_forecast_dialogs (forecast : list Weather) (intent_data : WeatherIntent)
  : list Dialog :=
  map (fun forecast_day => DailyDialog_weather intent_data forecast_day) forecast.

Definition _report_multi_day_forecast (message : Message) (days : Z) : M () :=
  do weather_config <- _get_weather_config (Some message);
  do intent_data <- lift (WeatherIntent_new message weather_config);
  do weather <- _get_weather (Some intent_data);
  match weather with
  | Some weather =>
      do forecast <-
        match get_forecast_for_multiple_days weather days with
        | Raise IndexError =>
            speak_dialog "seven-days-available" [] ;;
            lift (get_forecast_for_multiple_days weather 7)
        | r => lift r
        end;
      let dialogs := _build_forecast_dialogs forecast intent_data in
      _display_multi_day_forecast forecast ;;
      speak_all dialogs
  | None => ret ()
  end.

Definition _build_weekly_condition_dialogs (forecast : list Weather)
  (intent_data : WeatherIntent) : list Dialog :=
  let conditions := set_iter (map (fun daily => category (condition daily)) forecast) in
  map (fun condition => WeeklyDialog_condition intent_data forecast condition) conditions.

Definition _build_weekly_temperature_dialog (forecast : list Weather)
  (intent_data : WeatherIntent) : Dialog :=
  WeeklyDialog_temperature intent_data forecast.

Definition _report_week_summary (message : Message) : M () :=
  do weather_config <- _get_weather_config (Some message);
  do intent_data <- lift (WeatherIntent_new message weather_config);
  do weather <- _get_weather (Some intent_data);
  match weather with
  | Some weather =>
      do forecast <- lift (get_forecast_for_multiple_days weather 7);
      let dialogs := _build_weekly_condition_dialogs forecast intent_data in
      let dialogs :=
        (dialogs ++ [_build_weekly_temperature_dialog forecast intent_data])%list in
      _display_multi_day_forecast forecast ;;
      speak_all dialogs
  | None => ret ()
  end.

(** The day count [handle_number_days_forecast] computes. *)
Definition number_of_days (s : Skill) (message : Message) : Z :=
  if voc_match W (lang s) (utterance message) "couple" then 2
  else if voc_match W (lang s) (utterance message) "few" then 3
  else py_int (extract_number W (utterance message) (lang s)).

Definition handle_number_days_forecast (message : Message) : M () :=
  do s <- get;
  let days := number_of_days s message in
  _report_multi_day_forecast message days.

Definition handle_current_weather (message : Message) : M () :=
  _report_current_weather message.

Definition get_current_weather_homescreen (message : option Message)
  : M (option HomescreenReport) :=
  do r <- attempt (
    do weather_config <- _get_weather_config message;
    do weather <- lift (get_report W weather_config);
    let result :=
      {| weather_temp := temperature (current weather);
         high_temperature := temperature_high (current weather);
         low_temperature := temperature_low (current weather);
         weather_code := code (condition (current weather));
         condition_category := category (condition (current weather));
         condition_description := description (condition (current weather));
         system_unit := scale weather_config |} in
    bus_emit {| msg_type := "skill-ovos-weather.openvoiceos.weather.response";
                report := Some result |} ;;
    ret (Some result));
  match r with
  | Ok result => ret result
  | Raise _ =>
      log_line "Unexpected error getting weather for skill API." ;;
      ret None
  end.

(** The voice requests embedded above. *)
Inductive Request :=
| current_weather
| one_hour_weather
| multi_day_forecast (days : Z)
| week_summary
| number_days_forecast.

Definition handle (r : Request) (message : Message) : M () :=
  match r with
  | current_weather => _report_current_weather message
  | one_hour_weather => _report_one_hour_weather message
  | multi_day_forecast days => _report_multi_day_forecast message days
  | week_summary => _report_week_summary message
  | number_days_forecast => handle_number_days_forecast message
  end.

End WeatherSkill.

(** ** Reading a request and its effects *)

(** The effective configuration a request starts from. *)
Definition effective_config (s : Skill) (message : option Message) : WeatherConfig :=
  {| core_config := resolve_config s message; wc_settings := ∅ |}.

(** The resolution order in the words of the specification. *)
Definition timeframe_by_order (relative_time later relative_day today : bool) : Timeframe :=
  if relative_time then HOURLY
  else if later then HOURLY
  else if relative_day && negb today then DAILY
  else CURRENT.

(** The speech of [_speak_weather(dialog)]. *)
Definition weather_speech (dialog : Dialog) : Speech :=
  {| phrase := OfDialog dialog; wait := true |}.

(** The speech of [self.speak_dialog(name, data)]. *)
Definition notice (name : string) (data : list (string * option string)) : Speech :=
  {| phrase := Template name data; wait := false |}.

Definition is_notice (name : string) (sp : Speech) : bool :=
  match phrase sp with
  | Template n _ => String.eqb n name
  | OfDialog _ => false
  end.

Definition is_weather_dialog (sp : Speech) : bool :=
  match phrase sp with
  | Template _ _ => false
  | OfDialog _ => true
  end.

(** How many times the phrase [name] occurs in a run of speech. *)
Definition notices (name : string) (l : list Speech) : nat :=
  length (List.filter (is_notice name) l).

Definition not_paired : BusMessage :=
  {| msg_type := "mycroft.not.paired"; report := None |}.

(** The skill after a failed fetch. *)
Definition after_failed_fetch (e : PyExc) (place : option string) (s : Skill) : Skill :=
  {| config_core := config_core s; settings := settings s; lang := lang s;
     gui_connected := gui_connected s;
     spoken :=
       match e with
       | HTTPError None => spoken s
       | HTTPError (Some status_code) =>
           if Z.eqb status_code 401 then spoken s
           else spoken s ++ [notice "cant-get-forecast" []]
       | LocationNotFoundError =>
           spoken s ++ [notice "location-not-found" [("location", place)]]
       | _ => spoken s ++ [notice "cant-get-forecast" []]
       end;
     bus :=
       match e with
       | HTTPError (Some status_code) =>
           if Z.eqb status_code 401 then bus s ++ [not_paired] else bus s
       | _ => bus s
       end;
     display := display s;
     log :=
       match e with
       | HTTPError _ => log s ++ ["Weather API failure"]
       | LocationNotFoundError => log s ++ ["City not found."]
       | _ => log s ++ ["Unexpected error retrieving weather"]
       end |}.

(** What [_get_weather] returns after a failed fetch: no report, unless the
    handler of the HTTP error itself raised. *)
Definition failed_fetch_outcome (e : PyExc) : Result (option WeatherReport) :=
  match e with
  | HTTPError None => Raise AttributeError
  | _ => Ok None
  end.

(** The descriptor a voice request fetches the weather for, when it has
    one: the one [_get_intent_data] returns, or the one the handler
    constructs itself. *)
Definition request_intent (W : World) (r : Request) (message : Message) (s : Skill)
  : option WeatherIntent :=
  match r with
  | current_weather | one_hour_weather =>
      match outcome (_get_intent_data W message) s with
      | Ok (Some intent_data) => Some intent_data
      | _ => None
      end
  | _ =>
      match WeatherIntent_new W message (effective_config s (Some message)) with
      | Ok intent_data => Some intent_data
      | Raise _ => None
      end
  end.

(** The message with another unit slot. *)
Definition set_unit_slot (u : option string) (m : Message) : Message :=
  {| utterance := utterance m; unit_slot := u; lat_lon := lat_lon m;
     location := location m |}.

(** The settings of the descriptor's configuration after the unit override
    of [_get_intent_data], for a unit slot [u] and the vocabulary matcher
    [voc]. *)
Definition unit_override (voc : string -> string -> bool) (u : option string)
  : gmap string string :=
  match u with
  | None => ∅
  | Some u =>
      if String.eqb u "" then ∅
      else if voc u "fahrenheit" then {["units" := "imperial"]}
      else if voc u "celsius" then {["units" := "metric"]}
      else ∅
  end.

(** The effects a user can perceive: speech, a bus message, the screen. *)
Definition user_visible_signal (s s' : Skill) : Prop :=
  spoken s' <> spoken s \/ bus s' <> bus s \/ display s' <> display s.

(** A request fails when its query is malformed or its fetch raises. *)
Definition request_fails (W : World) (s : Skill) (message : option Message) : Prop :=
  (exists m, message = Some m /\
     WeatherIntent_new W m (effective_config s message) = Raise ValueError)
  \/ exists e, forall c, get_report W c = Raise e.

(** The condition a weekly condition dialog is about. *)
Definition dialog_condition (dialog : Dialog) : option string :=
  match dialog with
  | WeeklyDialog_condition _ _ condition => Some condition
  | _ => None
  end.

Definition categories (forecast : list Weather) : list string :=
  map (fun daily => category (condition daily)) forecast.

(** ** Screens *)

Definition TWELVE_HOUR : string := "half".

(** What the skill reads off a [datetime]: the day of the week (Monday is 0)
    and the wall-clock hour and minute. *)
Record DateTime := { weekday : nat; hour : nat; minute : nat }.

(** A [datetime] as the library builds them. *)
Definition valid_time (t : DateTime) : Prop :=
  (weekday t < 7)%nat /\ (hour t < 24)%nat /\ (minute t < 60)%nat.

Definition digit (d : nat) : Ascii.ascii := Ascii.ascii_of_nat (48 + d).

(** A number below 100 in two characters, zero-padded. *)
Definition two_digits (n : nat) : string :=
  String (digit (n / 10)) (String (digit (n mod 10)) "").

(** The hour on a twelve-hour clock: 12, 1, ..., 11. *)
Definition hour12 (t : DateTime) : nat :=
  if Nat.eqb (hour t mod 12) 0 then 12%nat else (hour t mod 12)%nat.

Definition weekday_abbreviation (d : nat) : string :=
  nth d ["Mon"; "Tue"; "Wed"; "Thu"; "Fri"; "Sat"; "Sun"] "".

(** Whether the character [c] is the one-character string [name]. *)
Definition is_char (c : Ascii.ascii) (name : string) : bool :=
  String.eqb (String c "") name.

(** The format codes of [strftime] the skill's clock displays use. *)
Definition directive (c : Ascii.ascii) (t : DateTime) : string :=
  if is_char c "I" then two_digits (hour12 t)
  else if is_char c "H" then two_digits (hour t)
  else if is_char c "M" then two_digits (minute t)
  else if is_char c "p" then (if (hour t <? 12)%nat then "AM" else "PM")
  else if is_char c "a" then weekday_abbreviation (weekday t)
  else if is_char c "%" then "%"
  else "%" +:+ String c "".

(** [date_time.strftime(format)]: a code is replaced by its value, any other
    character stands for itself. *)
Fixpoint strftime (format : string) (t : DateTime) : string :=
  match format with
  | EmptyString => ""
  | String a rest =>
      if is_char a "%" then
        match rest with
        | String c rest' => directive c t +:+ strftime rest' t
        | EmptyString => "%"
        end
      else String a (strftime rest t)
  end.

(** [int(text)] on a string of decimal digits. *)
Definition py_int_digits (text : string) : nat :=
  fold_left (fun n c => (10 * n + (Ascii.nat_of_ascii c - 48))%nat) (String.list_ascii_of_string text) 0%nat.

Fixpoint py_str_digits (fuel n : nat) (acc : string) : string :=
  match fuel with
  | O => acc
  | S fuel' =>
      if (n <? 10)%nat then String (digit n) acc
      else py_str_digits fuel' (n / 10) (String (digit (n mod 10)) acc)
  end.

(** [str(n)] of a natural number. *)
Definition py_str (n : nat) : string := py_str_digits (S n) n "".

(** [text[1:]]. *)
Definition py_tail (text : string) : string :=
  match text with
  | EmptyString => ""
  | String _ rest => rest
  end.

Definition _format_sunrise_sunset_time (s : Skill) (date_time : DateTime) : string :=
  if String.eqb (cfg_time_format (config_core s)) TWELVE_HOUR then
    let display_time := strftime "%I:%M" date_time in
    if String.prefix "0" display_time then py_tail display_time
    else display_time
  else strftime "%H:%M" date_time.

(** An entry of [hourlyForecast] on the hourly screen. *)
Record HourlyRow := {
  hourly_time : string;
  hourly_precipitation : Z;
  hourly_temperature : Z;
  hourly_weatherCondition : string
}.

(** An entry of [forecast] on the daily screen. *)
Record DailyRow := {
  daily_weatherCondition : string;
  daily_highTemperature : Z;
  daily_lowTemperature : Z;
  daily_date : string
}.

Section Screens.

(** The attributes of a snapshot the screens show and the records above
    leave out: its [date_time] as a wall-clock reading, the animation code of
    its condition and its chance of precipitation. *)
Context (wall_clock : Z -> DateTime) (animated_code : Condition -> string)
  (chance_of_precipitation : Weather -> Z).

(** The dict appended for one hour in [_display_hourly_forecast]. *)
Definition hourly_row (s : Skill) (hourly : Weather) : HourlyRow :=
  let t := wall_clock (date_time hourly) in
  let formatted_time :=
    if String.eqb (cfg_time_format (config_core s)) TWELVE_HOUR then
      let hour := py_int_digits (strftime "%I" t) in
      let am_pm := strftime " %p" t in
      py_str hour +:+ am_pm
    else strftime "%H:00" t in
  {| hourly_time := strftime formatted_time t;
     hourly_precipitation := chance_of_precipitation hourly;
     hourly_temperature := temperature hourly;
     hourly_weatherCondition := animated_code (condition hourly) |}.

(** The loop of [_display_hourly_forecast] over [enumerate(weather.hourly)],
    from the entry numbered [hour_count] on: entry 0 is skipped
    ([continue]), the loop ends after entry 4 ([break]). *)
Fixpoint hourly_forecast_loop (s : Skill) (hour_count : nat) (rest : list Weather)
  (hourly_forecast : list HourlyRow) : list HourlyRow :=
  match rest with
  | [] => hourly_forecast
  | hourly :: rest' =>
      if Nat.eqb hour_count 0 then
        hourly_forecast_loop s (S hour_count) rest' hourly_forecast
      else if (4 <? hour_count)%nat then hourly_forecast
      else hourly_forecast_loop s (S hour_count) rest'
             (hourly_forecast ++ [hourly_row s hourly])
  end.

(** The list [hourly_forecast] that [_display_hourly_forecast] puts on the
    screen. *)
Definition hourly_forecast_of (s : Skill) (weather : WeatherReport) : list HourlyRow :=
  hourly_forecast_loop s 0 (hourly weather) [].

(** The dict appended for one day in [_display_multi_day_scalable]. *)
Definition daily_row (day : Weather) : DailyRow :=
  {| daily_weatherCondition := animated_code (condition day);
     daily_highTemperature := temperature_high day;
     daily_lowTemperature := temperature_low day;
     daily_date := strftime "%a" (wall_clock (date_time day)) |}.

(** The loop of [_display_multi_day_scalable] over [enumerate(forecast)]: it
    ends at the entry numbered 4. *)
Fixpoint multi_day_loop (day_number : nat) (rest : list Weather)
  (display_data : list DailyRow) : list DailyRow :=
  match rest with
  | [] => display_data
  | day :: rest' =>
      if Nat.eqb day_number 4 then display_data
      else multi_day_loop (S day_number) rest' (display_data ++ [daily_row day])
  end.

(** The list [display_data] that [_display_multi_day_scalable] puts on the
    screen. *)
Definition _display_multi_day_scalable (forecast : list Weather) : list DailyRow :=
  multi_day_loop 0 forecast [].

End Screens.

(** [text.split(":")], for a text with one colon: the hour and minute a
    clock display shows. *)
Fixpoint read_clock_from (text hours : string) : nat * nat :=
  match text with
  | EmptyString => (py_int_digits hours, 0%nat)
  | String c rest =>
      if is_char c ":" then (py_int_digits hours, py_int_digits rest)
      else read_clock_from rest (hours +:+ String c "")
  end.

Definition read_clock (text : string) : nat * nat := read_clock_from text "".

(** The skill with its settings replaced, as the settings file is edited
    between two requests. *)
Definition set_settings (m : gmap string string) (s : Skill) : Skill :=
  {| config_core := config_core s; settings := m; lang := lang s;
     gui_connected := gui_connected s; spoken := spoken s; bus := bus s;
     display := display s; log := log s |}.

(** The skill with the twelve-hour or the 24-hour clock configured. *)
Definition with_time_format (time_format : string) (s : Skill) : Skill :=
  set_config_core
    {| cfg_lang := cfg_lang (config_core s);
       cfg_system_unit := cfg_system_unit (config_core s);
       cfg_coordinate := cfg_coordinate (config_core s);
       cfg_time_format := time_format |} s.

(** ** A concrete world, skill and report *)

(** Whether [word] occurs in [text]. *)
Definition occurs (word text : string) : bool :=
  match String.index 0 word text with
  | Some _ => true
  | None => false
  end.

(** A small English vocabulary: the words of each [.voc] file. *)
Definition sample_vocabulary (voc : string) : list string :=
  if String.eqb voc "relative-time" then ["tonight"; "this evening"]
  else if String.eqb voc "later" then ["later"]
  else if String.eqb voc "relative-day" then ["today"; "tomorrow"; "monday"]
  else if String.eqb voc "today" then ["today"]
  else if String.eqb voc "couple" then ["couple"]
  else if String.eqb voc "few" then ["few"]
  else if String.eqb voc "fahrenheit" then ["fahrenheit"]
  else if String.eqb voc "celsius" then ["celsius"]
  else [].

Definition sample_voc_match (lang text voc : string) : bool :=
  existsb (fun word => occurs word text) (sample_vocabulary voc).

Definition sample_extract_number (text lang : string) : PyNumber :=
  if occurs "10" text then PInt 10
  else if occurs "3" text then PInt 3
  else PFalse.

Definition sample_relative_hour (text : string) : option Z :=
  if occurs "in 50 hours" text then Some 50
  else if occurs "in 2 hours" text then Some 2
  else None.

Definition sample_snapshot (time : Z) (cat : string) : Weather :=
  {| date_time := time;
     condition := {| category := cat; description := cat; code := 800 |};
     temperature := 20; temperature_high := 24; temperature_low := 12 |}.

(** A full report: 48 hourly and 8 daily snapshots. *)
Definition sample_report : WeatherReport :=
  {| current := sample_snapshot 0 "Clear";
     hourly := map (fun h => sample_snapshot (Z.of_nat h) "Clear") (seq 0 48);
     daily := [sample_snapshot 0 "Clear"; sample_snapshot 24 "Clear";
               sample_snapshot 48 "Rain"; sample_snapshot 72 "Clear";
               sample_snapshot 96 "Clouds"; sample_snapshot 120 "Rain";
               sample_snapshot 144 "Clear"; sample_snapshot 168 "Snow"] |}.

(** A world whose provider answers every fetch with [fetch]. *)
Definition sample_world (fetch : Result WeatherReport) : World :=
  {| voc_match := sample_voc_match;
     get_report := fun _ => fetch;
     extract_number := sample_extract_number;
     geolocate := fun place => negb (String.eqb place "nowhere");
     extract_relative_day := fun _ => None;
     extract_relative_hour := sample_relative_hour |}.

Definition sample_skill : Skill :=
  {| config_core :=
       {| cfg_lang := "en-us"; cfg_system_unit := "metric";
          cfg_coordinate := {| latitude := 52520000; longitude := 13405000 |};
          cfg_time_format := "full" |};
     settings := ∅; lang := "en-us"; gui_connected := false;
     spoken := []; bus := []; display := []; log := [] |}.

Definition say (text : string) : Message :=
  {| utterance := text; unit_slot := None; lat_lon := None; location := None |}.

(** The salted string hash of CPython 3.11 with [PYTHONHASHSEED=0], on the
    two categories used below: [hash("Clear")] and [hash("Rain")]. *)
Definition sample_hash (x : string) : Z :=
  if String.eqb x "Clear" then 5174696957354464628
  else if String.eqb x "Rain" then -7661879053714939750
  else 0.

Definition sample_intent : WeatherIntent :=
  {| i_utterance := "what is the weather this week"; i_location := None;
     timeframe := CURRENT;
     config := effective_config sample_skill None;
     relative_day := None; relative_hour := None |}.

(** A request from elsewhere, in Fahrenheit. *)
Definition sample_message_elsewhere : Message :=
  {| utterance := "what is the weather in fahrenheit";
     unit_slot := Some "fahrenheit";
     lat_lon := Some (40712000, -74006000);
     location := None |}.

(** Timestamps counted in hours from a Monday midnight. *)
Definition sample_clock (time : Z) : DateTime :=
  {| weekday := (Z.to_nat (time / 24) mod 7)%nat;
     hour := (Z.to_nat time mod 24)%nat;
     minute := 0 |}.

Definition sample_animated_code (c : Condition) : string := category c.

Definition sample_precipitation (w : Weather) : Z := 10.

(** The sample skill with the twelve-hour clock. *)
Definition sample_skill_twelve_hour : Skill := with_time_format TWELVE_HOUR sample_skill.

(** The sample skill with the skill units set to imperial. *)
Definition sample_skill_imperial : Skill :=
  set_settings {["units" := "imperial"]} sample_skill.

(** A request from a point on the equator. *)
Definition sample_message_equator : Message :=
  {| utterance := "what is the weather"; unit_slot := None;
     lat_lon := Some (0, 30000000); location := None |}.

(** A request whose unit slot matches both unit vocabularies. *)
Definition sample_message_both_units : Message :=
  {| utterance := "what is the temperature";
     unit_slot := Some "fahrenheit or celsius";
     lat_lon := None; location := None |}.

(** ** The timeframe of a request *)

Lemma get_weather_config_run s message :
  _get_weather_config message s =
  (Ok (effective_config s message), set_config_core (resolve_config s message) s).
Proof. reflexivity. Qed.

(** With the intent built, [_get_intent_data] only edits the descriptor: the
    timeframe by the vocabulary of the utterance, the unit by the unit slot. *)
Lemma get_intent_data_ok W s message i0 :
  WeatherIntent_new W message (effective_config s (Some message)) = Ok i0 ->
  exists i,
    _get_intent_data W message s =
      (Ok (Some i), set_config_core (resolve_config s (Some message)) s)
    /\ timeframe i =
         timeframe_by_order
           (voc_match W (lang s) (utterance message) "relative-time")
           (voc_match W (lang s) (utterance message) "later")
           (voc_match W (lang s) (utterance message) "relative-day")
           (voc_match W (lang s) (utterance message) "today")
    /\ core_config (config i) = resolve_config s (Some message)
    /\ i_location i = location message.
Proof.
  intros Hnew.
  assert (Hu : i_utterance i0 = utterance message /\ timeframe i0 = CURRENT
               /\ config i0 = effective_config s (Some message)
               /\ i_location i0 = location message).
  { unfold WeatherIntent_new in Hnew.
    destruct (location message) as [place|]; [destruct (geolocate W place)|];
      inversion Hnew; subst; simpl; auto. }
  destruct Hu as (Hu & Ht & Hc & Hl).
  unfold _get_intent_data, bind, attempt, lift, get, ret.
  rewrite get_weather_config_run, Hnew. simpl. rewrite Hu.
  eexists. split; [reflexivity|].
  unfold timeframe_by_order.
  destruct (voc_match W (lang s) (utterance message) "relative-time");
    destruct (voc_match W (lang s) (utterance message) "later");
    destruct (voc_match W (lang s) (utterance message) "relative-day");
    destruct (voc_match W (lang s) (utterance message) "today");
    destruct (unit_slot message) as [u|]; simpl;
    try (destruct (truthy u); simpl;
         destruct (voc_match W (lang s) u "fahrenheit"); simpl;
         try destruct (voc_match W (lang s) u "celsius"); simpl);
    rewrite ?Ht, ?Hc, ?Hl; auto.
Qed.

(** C1: when the utterance parses into a query descriptor, [_get_intent_data]
    returns it with the timeframe resolved in this order: relative-time
    vocabulary gives hourly; else "later" vocabulary gives hourly; else
    relative-day vocabulary without "today" vocabulary gives daily; otherwise
    it stays current, in particular when both relative-day and "today"
    match. *)
Theorem timeframe_resolution_order W s message i0 :
  WeatherIntent_new W message (effective_config s (Some message)) = Ok i0 ->
  let voc := voc_match W (lang s) (utterance message) in
  exists i,
    outcome (_get_intent_data W message) s = Ok (Some i)
    /\ timeframe i =
         timeframe_by_order (voc "relative-time") (voc "later")
           (voc "relative-day") (voc "today")
    /\ (voc "relative-time" = true -> timeframe i = HOURLY)
    /\ (voc "relative-time" = false -> voc "later" = true -> timeframe i = HOURLY)
    /\ (voc "relative-time" = false -> voc "later" = false ->
        voc "relative-day" = true -> voc "today" = false -> timeframe i = DAILY)
    /\ (voc "relative-time" = false -> voc "later" = false ->
        voc "relative-day" = true -> voc "today" = true -> timeframe i = CURRENT)
    /\ (voc "relative-time" = false -> voc "later" = false ->
        voc "relative-day" = false -> timeframe i = CURRENT).
Proof.
  intros Hnew voc.
  destruct (get_intent_data_ok W s message i0 Hnew) as (i & Hrun & Ht & _).
  exists i. unfold outcome. rewrite Hrun. split; [reflexivity|].
  split; [exact Ht|]. fold voc in Ht. rewrite Ht. unfold timeframe_by_order.
  repeat split; intros; repeat match goal with H : voc _ = _ |- _ => rewrite H end;
    reflexivity.
Qed.

(** ** What a request says *)

Lemma notices_weather_speech name dialogs :
  notices name (map weather_speech dialogs) = 0%nat.
Proof. induction dialogs as [|d ds IH]; [reflexivity|exact IH]. Qed.

Lemma skill_eta s :
  {| config_core := config_core s; settings := settings s; lang := lang s;
     gui_connected := gui_connected s; spoken := spoken s; bus := bus s;
     display := display s; log := log s |} = s.
Proof. destruct s; reflexivity. Qed.

Lemma speak_all_run dialogs s :
  speak_all dialogs s =
  (Ok (),
   {| config_core := config_core s; settings := settings s; lang := lang s;
      gui_connected := gui_connected s;
      spoken := spoken s ++ map weather_speech dialogs; bus := bus s;
      display := display s;
      log := log s ++ map (fun _ => "Speaking dialog") dialogs |}).
Proof.
  revert s. induction dialogs as [|d ds IH]; intros s.
  - simpl. rewrite !app_nil_r, skill_eta. reflexivity.
  - change (speak_all (d :: ds)) with (_speak_weather d ;; speak_all ds).
    unfold bind, _speak_weather, log_line. simpl. rewrite IH. simpl.
    rewrite <- !app_assoc. reflexivity.
Qed.

(** The fetch succeeded: [_get_weather] hands the report over and touches
    nothing. *)
Lemma get_weather_ok W i s weather :
  get_report W (config i) = Ok weather ->
  _get_weather W (Some i) s = (Ok (Some weather), s).
Proof. intros H. unfold _get_weather. rewrite H. reflexivity. Qed.

Lemma get_weather_failed W i s e :
  get_report W (config i) = Raise e ->
  _get_weather W (Some i) s =
  (failed_fetch_outcome e, after_failed_fetch e (i_location i) s).
Proof.
  intros H. unfold _get_weather. rewrite H.
  destruct e as [| | |[status|]| |name]; try reflexivity.
  unfold bind, log_line, _handle_api_error, after_failed_fetch.
  simpl. destruct (Z.eqb status 401); reflexivity.
Qed.

(** A request whose location names no place: [_get_intent_data] says the
    fallback and returns no descriptor. *)
Lemma get_intent_data_malformed W s message :
  WeatherIntent_new W message (effective_config s (Some message)) = Raise ValueError ->
  _get_intent_data W message s =
  (Ok None,
   set_spoken (spoken s ++ [notice "cant-get-forecast" []])
     (set_config_core (resolve_config s (Some message)) s)).
Proof.
  intros H. unfold _get_intent_data, bind, attempt, lift.
  rewrite get_weather_config_run, H. reflexivity.
Qed.

(** The constructor raises nothing but [ValueError]. *)
Lemma WeatherIntent_new_cases W message c :
  (exists i, WeatherIntent_new W message c = Ok i)
  \/ WeatherIntent_new W message c = Raise ValueError.
Proof.
  unfold WeatherIntent_new.
  destruct (location message) as [place|]; [destruct (geolocate W place)|]; eauto.
Qed.

(** [_get_intent_data] never raises; it returns a descriptor exactly when
    the constructor does, and then it has said nothing. *)
Lemma get_intent_data_some W s message i :
  outcome (_get_intent_data W message) s = Ok (Some i) ->
  _get_intent_data W message s =
    (Ok (Some i), set_config_core (resolve_config s (Some message)) s).
Proof.
  intros Hout.
  destruct (WeatherIntent_new_cases W message (effective_config s (Some message)))
    as [[i0 Hi0]|Hbad].
  - destruct (get_intent_data_ok W s message i0 Hi0) as (i' & Hrun & _).
    unfold outcome in Hout. rewrite Hrun in Hout |- *. simpl in Hout.
    congruence.
  - unfold outcome in Hout. rewrite (get_intent_data_malformed W s message Hbad) in Hout.
    discriminate.
Qed.

Lemma WeatherIntent_new_location W message c i :
  WeatherIntent_new W message c = Ok i ->
  i_location i = location message /\ config i = c.
Proof.
  unfold WeatherIntent_new.
  destruct (location message) as [place|]; [destruct (geolocate W place)|];
    intros H; inversion H; subst; simpl; auto.
Qed.

Lemma get_intent_data_location W s message i :
  outcome (_get_intent_data W message) s = Ok (Some i) ->
  i_location i = location message.
Proof.
  intros Hout.
  destruct (WeatherIntent_new_cases W message (effective_config s (Some message)))
    as [[i0 Hi0]|Hbad].
  - destruct (get_intent_data_ok W s message i0 Hi0) as (i' & Hrun & _ & _ & Hloc).
    unfold outcome in Hout. rewrite Hrun in Hout. simpl in Hout.
    inversion Hout; subst i'. exact Hloc.
  - unfold outcome in Hout.
    rewrite (get_intent_data_malformed W s message Hbad) in Hout. discriminate.
Qed.

(** What it takes for a request to have a descriptor. *)
Lemma request_intent_parsed W r message s i :
  request_intent W r message s = Some i ->
  match r with
  | current_weather | one_hour_weather =>
      outcome (_get_intent_data W message) s = Ok (Some i)
  | _ => WeatherIntent_new W message (effective_config s (Some message)) = Ok i
  end.
Proof.
  unfold request_intent.
  destruct r;
    try (destruct (outcome (_get_intent_data W message) s) as [[i'|]|e];
         intros H; inversion H; reflexivity);
    destruct (WeatherIntent_new W message (effective_config s (Some message)))
      as [i'|e]; intros H; inversion H; reflexivity.
Qed.

(** The first two steps of the handlers that build the descriptor
    themselves: resolve the configuration, construct the intent. *)
Ltac build_intent H :=
  unfold bind, lift; rewrite get_weather_config_run, H.

(** A request whose fetch fails ends there: what it leaves behind is what
    [_get_weather] left, and it raises what [_get_weather] raised. *)
Lemma handle_fetch_failed W {order : SetOrder} r message s i e :
  request_intent W r message s = Some i ->
  get_report W (config i) = Raise e ->
  handle W r message s =
  (match failed_fetch_outcome e with
   | Ok _ => Ok ()
   | Raise x => Raise x
   end,
   after_failed_fetch e (location message)
     (set_config_core (resolve_config s (Some message)) s)).
Proof.
  intros Hreq Hfetch. apply request_intent_parsed in Hreq.
  destruct r; simpl in Hreq |- *.
  - unfold _report_current_weather, bind.
    rewrite (get_intent_data_some W s message i Hreq).
    rewrite (get_weather_failed W i _ e Hfetch),
            (get_intent_data_location W s message i Hreq).
    destruct e as [| | |[status|]| |name]; reflexivity.
  - unfold _report_one_hour_weather, bind.
    rewrite (get_intent_data_some W s message i Hreq).
    rewrite (get_weather_failed W i _ e Hfetch),
            (get_intent_data_location W s message i Hreq).
    destruct e as [| | |[status|]| |name]; reflexivity.
  - destruct (WeatherIntent_new_location _ _ _ _ Hreq) as [Hloc _].
    unfold _report_multi_day_forecast. build_intent Hreq.
    rewrite (get_weather_failed W i _ e Hfetch), Hloc.
    destruct e as [| | |[status|]| |name]; reflexivity.
  - destruct (WeatherIntent_new_location _ _ _ _ Hreq) as [Hloc _].
    unfold _report_week_summary. build_intent Hreq.
    rewrite (get_weather_failed W i _ e Hfetch), Hloc.
    destruct e as [| | |[status|]| |name]; reflexivity.
  - destruct (WeatherIntent_new_location _ _ _ _ Hreq) as [Hloc _].
    unfold handle_number_days_forecast, get, _report_multi_day_forecast.
    build_intent Hreq.
    rewrite (get_weather_failed W i _ e Hfetch), Hloc.
    destruct e as [| | |[status|]| |name]; reflexivity.
Qed.

(** A malformed query: the requests that parse through [_get_intent_data] say
    the fallback and stop; the others let the [ValueError] through. *)
Lemma handle_malformed W {order : SetOrder} r message s :
  WeatherIntent_new W message (effective_config s (Some message)) = Raise ValueError ->
  let s1 := set_config_core (resolve_config s (Some message)) s in
  handle W r message s =
  match r with
  | current_weather | one_hour_weather =>
      (Ok (), set_spoken (spoken s ++ [notice "cant-get-forecast" []]) s1)
  | _ => (Raise ValueError, s1)
  end.
Proof.
  intros Hbad s1.
  destruct r; simpl.
  - unfold _report_current_weather, bind.
    rewrite (get_intent_data_malformed W s message Hbad). reflexivity.
  - unfold _report_one_hour_weather, bind.
    rewrite (get_intent_data_malformed W s message Hbad). reflexivity.
  - unfold _report_multi_day_forecast. build_intent Hbad. reflexivity.
  - unfold _report_week_summary. build_intent Hbad. reflexivity.
  - unfold handle_number_days_forecast, get, _report_multi_day_forecast.
    build_intent Hbad. reflexivity.
Qed.

(** The home-screen API with a failing fetch: the exception is logged and
    nothing else happens. *)
Lemma homescreen_fetch_failed W message s e :
  get_report W (effective_config s message) = Raise e ->
  get_current_weather_homescreen W message s =
  (Ok None,
   set_log (log s ++ ["Unexpected error getting weather for skill API."])
     (set_config_core (resolve_config s message) s)).
Proof.
  intros Hfetch.
  unfold get_current_weather_homescreen, bind, attempt, lift.
  rewrite get_weather_config_run, Hfetch. reflexivity.
Qed.

(** C4, amended: in a voice request whose provider fetch fails with an HTTP
    error that carries a status, status 401 emits the re-pairing signal on the
    bus and speaks nothing; any other status speaks the "can't get forecast"
    fallback and emits no signal.  The home-screen API answers an HTTP error
    of any status, 401 included, with neither: it emits nothing, speaks
    nothing, returns no report and logs the error. *)
Theorem http_error_signal W {order : SetOrder} message s status :
  (forall r i,
     request_intent W r message s = Some i ->
     get_report W (config i) = Raise (HTTPError (Some status)) ->
     let s' := state_after (handle W r message) s in
     outcome (handle W r message) s = Ok ()
     /\ (status = 401 -> bus s' = bus s ++ [not_paired] /\ spoken s' = spoken s)
     /\ (status <> 401 ->
         spoken s' = spoken s ++ [notice "cant-get-forecast" []] /\ bus s' = bus s))
  /\ (forall hmessage,
        get_report W (effective_config s hmessage) = Raise (HTTPError (Some status)) ->
        let s' := state_after (get_current_weather_homescreen W hmessage) s in
        outcome (get_current_weather_homescreen W hmessage) s = Ok None
        /\ bus s' = bus s /\ spoken s' = spoken s
        /\ log s' = log s ++ ["Unexpected error getting weather for skill API."]).
Proof.
  split.
  - intros r i Hreq Hfetch s'. subst s'. unfold state_after, outcome.
    rewrite (handle_fetch_failed W r message s i _ Hreq Hfetch). simpl.
    split; [reflexivity|]. split; intros Hs.
    + subst status. auto.
    + destruct (Z.eqb_spec status 401); [contradiction|auto].
  - intros hmessage Hfetch s'. subst s'. unfold state_after, outcome.
    rewrite (homescreen_fetch_failed W hmessage s _ Hfetch). simpl. auto.
Qed.

(** C5, amended: a failing voice request speaks at most one utterance, a
    fallback and never a weather dialog, and which one is fixed by the
    failure.  A malformed query speaks "can't get forecast" in the requests
    that parse through [_get_intent_data]; from the requests that construct
    the descriptor themselves the [ValueError] goes to the caller, unspoken.
    A location that is not found speaks "location not found" with the place.
    An HTTP error with status 401 speaks nothing and emits the re-pairing
    signal; with any other status, as any unexpected exception of the fetch,
    it speaks "can't get forecast"; without a response, the
    [AttributeError] of reading its status goes to the caller, unspoken.  The
    home-screen API with a failing fetch speaks nothing, emits nothing, draws
    nothing and returns no report: the failure is only logged. *)
Theorem failure_is_one_fallback W {order : SetOrder} message s :
  (forall r,
     WeatherIntent_new W message (effective_config s (Some message))
       = Raise ValueError ->
     let s' := state_after (handle W r message) s in
     bus s' = bus s
     /\ match r with
        | current_weather | one_hour_weather =>
            outcome (handle W r message) s = Ok ()
            /\ spoken s' = spoken s ++ [notice "cant-get-forecast" []]
        | _ =>
            outcome (handle W r message) s = Raise ValueError
            /\ spoken s' = spoken s
        end)
  /\ (forall r i e,
        request_intent W r message s = Some i ->
        get_report W (config i) = Raise e ->
        let s' := state_after (handle W r message) s in
        match e with
        | HTTPError None =>
            outcome (handle W r message) s = Raise AttributeError
            /\ spoken s' = spoken s /\ bus s' = bus s
        | HTTPError (Some status) =>
            outcome (handle W r message) s = Ok ()
            /\ if Z.eqb status 401
               then spoken s' = spoken s /\ bus s' = bus s ++ [not_paired]
               else spoken s' = spoken s ++ [notice "cant-get-forecast" []]
                    /\ bus s' = bus s
        | LocationNotFoundError =>
            outcome (handle W r message) s = Ok ()
            /\ spoken s' =
                 spoken s ++
                   [notice "location-not-found" [("location", location message)]]
            /\ bus s' = bus s
        | _ =>
            outcome (handle W r message) s = Ok ()
            /\ spoken s' = spoken s ++ [notice "cant-get-forecast" []]
            /\ bus s' = bus s
        end)
  /\ (forall r,
        WeatherIntent_new W message (effective_config s (Some message))
          = Raise ValueError
        \/ (exists i e, request_intent W r message s = Some i
                        /\ get_report W (config i) = Raise e) ->
        exists said,
          spoken (state_after (handle W r message) s) = spoken s ++ said
          /\ (length said <= 1)%nat
          /\ Forall (fun sp => is_weather_dialog sp = false) said)
  /\ (forall hmessage e,
        get_report W (effective_config s hmessage) = Raise e ->
        let s' := state_after (get_current_weather_homescreen W hmessage) s in
        outcome (get_current_weather_homescreen W hmessage) s = Ok None
        /\ spoken s' = spoken s /\ bus s' = bus s /\ display s' = display s
        /\ log s' = log s ++ ["Unexpected error getting weather for skill API."]).
Proof.
  assert (Hone : forall (old : list Speech) name data,
            exists said, old ++ [notice name data] = old ++ said
                         /\ (length said <= 1)%nat
                         /\ Forall (fun sp => is_weather_dialog sp = false) said).
  { intros old name data. exists [notice name data].
    split; [reflexivity|]. split; [simpl; lia|repeat constructor]. }
  assert (Hnone : forall old : list Speech,
            exists said, old = old ++ said
                         /\ (length said <= 1)%nat
                         /\ Forall (fun sp => is_weather_dialog sp = false) said).
  { intros old. exists []. rewrite app_nil_r.
    split; [reflexivity|]. split; [simpl; lia|constructor]. }
  split; [|split; [|split]].
  - intros r Hbad s'. subst s'. unfold state_after, outcome.
    rewrite (handle_malformed W r message s Hbad).
    destruct r; simpl; auto.
  - intros r i e Hreq Hfetch s'. subst s'. unfold state_after, outcome.
    rewrite (handle_fetch_failed W r message s i e Hreq Hfetch).
    destruct e as [| | |[status|]| |name]; simpl; auto.
    destruct (Z.eqb status 401); auto.
  - intros r [Hbad|(i & e & Hreq & Hfetch)]; unfold state_after.
    + rewrite (handle_malformed W r message s Hbad).
      destruct r; simpl; auto.
    + rewrite (handle_fetch_failed W r message s i e Hreq Hfetch).
      destruct e as [| | |[status|]| |name]; simpl; auto.
      destruct (Z.eqb status 401); auto.
  - intros hmessage e Hfetch s'. subst s'. unfold state_after, outcome.
    rewrite (homescreen_fetch_failed W hmessage s e Hfetch). simpl. auto.
Qed.

Lemma py_slice_week {A} (l : list A) :
  length l = 8%nat -> length (py_slice l 1 8) = 7%nat.
Proof.
  intros H. unfold py_slice. rewrite H. simpl.
  rewrite length_take, length_drop, H. reflexivity.
Qed.

(** C2: a multi-day request for more than seven days, with the report
    fetched, speaks the "seven days available" notice once and then the daily
    dialogs of the seven-day sequence, the days after today in the report:
    seven of them when the report holds its eight daily snapshots. *)
Theorem more_than_seven_days W s message days i weather :
  WeatherIntent_new W message (effective_config s (Some message)) = Ok i ->
  get_report W (config i) = Ok weather ->
  7 < days ->
  let s' := state_after (_report_multi_day_forecast W message days) s in
  let seven_days := py_slice (daily weather) 1 8 in
  outcome (_report_multi_day_forecast W message days) s = Ok ()
  /\ get_forecast_for_multiple_days weather 7 = Ok seven_days
  /\ spoken s' =
       spoken s ++ notice "seven-days-available" []
         :: map (fun day => weather_speech (DailyDialog_weather i day)) seven_days
  /\ notices "seven-days-available" (drop (length (spoken s)) (spoken s')) = 1%nat
  /\ (length (daily weather) = 8%nat -> length seven_days = 7%nat).
Proof.
  intros Hnew Hfetch Hdays s' seven_days.
  assert (Hrun : _report_multi_day_forecast W message days s =
    (Ok (),
     {| config_core := resolve_config s (Some message); settings := settings s;
        lang := lang s; gui_connected := gui_connected s;
        spoken := (spoken s ++ [notice "seven-days-available" []])
                  ++ map weather_speech (_build_forecast_dialogs seven_days i);
        bus := bus s;
        display := display s ++ [gui_show_page "DailyForecast.qml"];
        log := log s ++ map (fun _ => "Speaking dialog")
                          (_build_forecast_dialogs seven_days i) |})).
  { unfold _report_multi_day_forecast, bind, lift.
    rewrite get_weather_config_run, Hnew, (get_weather_ok W i _ weather Hfetch).
    unfold get_forecast_for_multiple_days at 1.
    destruct (Z.ltb_spec 7 days) as [_|Hle]; [|lia].
    unfold speak_dialog, _display_multi_day_forecast, show. simpl.
    rewrite speak_all_run. reflexivity. }
  subst s'. unfold outcome, state_after. rewrite Hrun. simpl.
  split; [reflexivity|]. split; [reflexivity|].
  unfold _build_forecast_dialogs. rewrite map_map, <- app_assoc. simpl.
  split; [reflexivity|]. split.
  - rewrite drop_app_length. unfold notices. simpl.
    rewrite <- (map_map (DailyDialog_weather i) weather_speech).
    apply f_equal. apply (notices_weather_speech "seven-days-available").
  - apply py_slice_week.
Qed.

(** C3: a one-hour request whose relative-hour offset is beyond the 48-hour
    window, with the report fetched, gets no snapshot: it speaks the
    "forty-eight hours available" notice once and no weather dialog. *)
Theorem hour_beyond_window W s message i weather offset :
  outcome (_get_intent_data W message) s = Ok (Some i) ->
  get_report W (config i) = Ok weather ->
  relative_hour i = Some offset ->
  48 < offset ->
  let s' := state_after (_report_one_hour_weather W message) s in
  outcome (_report_one_hour_weather W message) s = Ok ()
  /\ get_forecast_for_hour weather i = Raise IndexError
  /\ spoken s' = spoken s ++ [notice "forty-eight-hours-available" []]
  /\ notices "forty-eight-hours-available"
       (drop (length (spoken s)) (spoken s')) = 1%nat
  /\ Forall (fun sp => is_weather_dialog sp = false)
       (drop (length (spoken s)) (spoken s')).
Proof.
  intros Hintent Hfetch Hhour Hoff s'.
  assert (Hraise : get_forecast_for_hour weather i = Raise IndexError).
  { unfold get_forecast_for_hour. rewrite Hhour. simpl.
    destruct (Z.ltb_spec 48 offset) as [_|Hle]; [reflexivity|lia]. }
  subst s'. unfold outcome, state_after, _report_one_hour_weather, bind.
  rewrite (get_intent_data_some W s message i Hintent).
  rewrite (get_weather_ok W i _ weather Hfetch), Hraise. simpl.
  rewrite drop_app_length.
  repeat split; repeat constructor.
Qed.

(** C8: a current-weather request that parses and whose fetch succeeds
    speaks exactly two dialogs, the current conditions and then the high and
    low temperature, each with [wait=True]. *)
Theorem current_weather_two_dialogs W s message i weather :
  outcome (_get_intent_data W message) s = Ok (Some i) ->
  get_report W (config i) = Ok weather ->
  let s' := state_after (_report_current_weather W message) s in
  outcome (_report_current_weather W message) s = Ok ()
  /\ spoken s' =
       spoken s ++
         [ {| phrase := OfDialog (CurrentDialog_weather i (current weather));
              wait := true |};
           {| phrase := OfDialog (CurrentDialog_high_low_temperature i (current weather));
              wait := true |} ].
Proof.
  intros Hintent Hfetch s'.
  subst s'. unfold outcome, state_after, _report_current_weather, bind.
  rewrite (get_intent_data_some W s message i Hintent).
  rewrite (get_weather_ok W i _ weather Hfetch).
  unfold _display_current_conditions, bind, get. simpl.
  destruct (gui_connected s) eqn:Hgui; simpl; rewrite ?Hgui; simpl;
    rewrite <- app_assoc; auto.
Qed.

(** ** Iteration orders of a set *)

Lemma first_occurrences_from_elem_of seen l x :
  x ∈ first_occurrences_from seen l <-> x ∈ l /\ x ∉ seen.
Proof.
  revert seen. induction l as [|y l IH]; intros seen; simpl.
  - split; [intros H; inversion H|intros [H _]; inversion H].
  - destruct (decide (y ∈ seen)) as [Hy|Hy].
    + rewrite IH, elem_of_cons. split; [tauto|].
      intros [[->|H] Hx]; [contradiction|tauto].
    + rewrite !elem_of_cons, IH, elem_of_cons. split.
      * intros [->|(H & Hx)]; [tauto|]. split; [tauto|]. intros Hs. apply Hx. tauto.
      * intros [[->|H] Hx]; [tauto|].
        destruct (decide (x = y)) as [->|Hne]; [tauto|]. right. split; [tauto|].
        intros [?|?]; [contradiction|contradiction].
Qed.

Lemma first_occurrences_from_NoDup seen l : NoDup (first_occurrences_from seen l).
Proof.
  revert seen. induction l as [|y l IH]; intros seen; simpl.
  - constructor.
  - destruct (decide (y ∈ seen)); [apply IH|].
    constructor; [|apply IH].
    rewrite first_occurrences_from_elem_of, elem_of_cons. tauto.
Qed.

Lemma slot_place_Permutation hash x table : slot_place hash x table ≡ₚ x :: table.
Proof.
  induction table as [|y table IH]; simpl; [reflexivity|].
  destruct (slot hash x <? slot hash y)%Z; [reflexivity|].
  rewrite IH. apply Permutation_swap.
Qed.

Lemma slot_insert_elem_of hash x table y :
  y ∈ slot_insert hash x table <-> y = x \/ y ∈ table.
Proof.
  unfold slot_insert. destruct (decide (x ∈ table)) as [Hx|Hx].
  - split; [tauto|]. intros [->|H]; assumption.
  - rewrite slot_place_Permutation, elem_of_cons. reflexivity.
Qed.

Lemma slot_insert_NoDup hash x table : NoDup table -> NoDup (slot_insert hash x table).
Proof.
  intros Hnd. unfold slot_insert. destruct (decide (x ∈ table)) as [Hx|Hx]; [assumption|].
  rewrite slot_place_Permutation. constructor; assumption.
Qed.

Lemma slot_fold_NoDup hash l table :
  NoDup table -> NoDup (foldl (fun table x => slot_insert hash x table) table l).
Proof.
  revert table. induction l as [|x l IH]; intros table Hnd; simpl; [assumption|].
  apply IH, slot_insert_NoDup, Hnd.
Qed.

Lemma slot_fold_elem_of hash l table y :
  y ∈ foldl (fun table x => slot_insert hash x table) table l <-> y ∈ table \/ y ∈ l.
Proof.
  revert table. induction l as [|x l IH]; intros table; simpl.
  - split; [tauto|]. intros [H|H]; [assumption|inversion H].
  - rewrite IH, slot_insert_elem_of, elem_of_cons. tauto.
Qed.

(** The order of first occurrence is an iteration order. *)
#[local] Instance first_occurrence_order : SetOrder.
Proof.
  refine {| set_iter := first_occurrences |}.
  - intros l. apply first_occurrences_from_NoDup.
  - intros l x. unfold first_occurrences.
    rewrite first_occurrences_from_elem_of. split; [tauto|].
    intros H. split; [assumption|]. intros Hx. inversion Hx.
Defined.

(** The slot order of a small CPython set is an iteration order. *)
Definition cpython_order (hash : string -> Z) : SetOrder.
Proof.
  refine {| set_iter := slot_order hash |}.
  - intros l. apply slot_fold_NoDup. constructor.
  - intros l x. unfold slot_order. rewrite slot_fold_elem_of. split; [|tauto].
    intros [H|H]; [inversion H|assumption].
Defined.

(** ** The week summary *)

Lemma weekly_dialog_conditions {order : SetOrder} forecast intent_data :
  map dialog_condition (_build_weekly_condition_dialogs forecast intent_data) =
  map Some (set_iter (categories forecast)).
Proof.
  unfold _build_weekly_condition_dialogs. rewrite map_map. reflexivity.
Qed.

(** C6: whatever the iteration order of the set, the condition dialogs of a
    week summary are condition dialogs of pairwise different categories: two
    dialogs of the list with the same category are the same entry. *)
Theorem weekly_conditions_distinct {order : SetOrder} forecast intent_data :
  let dialogs := _build_weekly_condition_dialogs forecast intent_data in
  Forall (fun dialog => exists c, dialog_condition dialog = Some c
                                  /\ c ∈ categories forecast) dialogs
  /\ NoDup (map dialog_condition dialogs)
  /\ (forall j k d1 d2,
        dialogs !! j = Some d1 -> dialogs !! k = Some d2 ->
        dialog_condition d1 = dialog_condition d2 -> j = k).
Proof.
  intros dialogs.
  assert (Hnd : NoDup (map dialog_condition dialogs)).
  { subst dialogs. rewrite weekly_dialog_conditions.
    apply NoDup_fmap_2; [intros a b H; congruence|apply set_iter_NoDup]. }
  split; [|split; [exact Hnd|]].
  - subst dialogs. unfold _build_weekly_condition_dialogs.
    apply Forall_forall. intros d Hd.
    apply list_elem_of_fmap in Hd. destruct Hd as (c & -> & Hc).
    exists c. split; [reflexivity|]. exact (proj1 (set_iter_elem_of _ _) Hc).
  - intros j k d1 d2 Hj Hk Heq.
    apply (proj1 (NoDup_alt _) Hnd j k (dialog_condition d1)).
    + rewrite list_lookup_fmap, Hj. reflexivity.
    + rewrite list_lookup_fmap, Hk, Heq. reflexivity.
Qed.

(** C7, amended: the condition dialogs of a week summary come in the
    iteration order of the set of categories; their categories are those of
    the forecast, each once: a rearrangement of the order of first
    occurrence, and that order itself when the set iterates so. *)
Theorem weekly_conditions_in_set_order {order : SetOrder} forecast intent_data :
  map dialog_condition (_build_weekly_condition_dialogs forecast intent_data) =
    map Some (set_iter (categories forecast))
  /\ map dialog_condition (_build_weekly_condition_dialogs forecast intent_data)
       ≡ₚ map Some (first_occurrences (categories forecast))
  /\ map dialog_condition
       (@_build_weekly_condition_dialogs first_occurrence_order forecast intent_data) =
     map Some (first_occurrences (categories forecast)).
Proof.
  split; [apply weekly_dialog_conditions|]. split.
  - rewrite weekly_dialog_conditions. apply fmap_Permutation.
    apply NoDup_Permutation.
    + apply set_iter_NoDup.
    + apply first_occurrences_from_NoDup.
    + intros x. rewrite set_iter_elem_of.
      unfold first_occurrences. rewrite first_occurrences_from_elem_of.
      split; [|tauto]. intros H. split; [assumption|]. intros Hx. inversion Hx.
  - apply (@weekly_dialog_conditions first_occurrence_order).
Qed.

(** ** The stored configuration *)

Lemma get_intent_data_state W s message :
  let s' := state_after (_get_intent_data W message) s in
  config_core s' = resolve_config s (Some message)
  /\ settings s' = settings s /\ lang s' = lang s.
Proof.
  intros s'. subst s'. unfold state_after.
  destruct (WeatherIntent_new_cases W message (effective_config s (Some message)))
    as [[i0 Hi0]|Hbad].
  - destruct (get_intent_data_ok W s message i0 Hi0) as (i & Hrun & _).
    rewrite Hrun. simpl. auto.
  - rewrite (get_intent_data_malformed W s message Hbad). simpl. auto.
Qed.

(** Where the unit override of a request lands: in the settings of the
    descriptor's own configuration. *)
Lemma unit_override_in_descriptor W s message i u :
  outcome (_get_intent_data W message) s = Ok (Some i) ->
  unit_slot message = Some u -> truthy u = true ->
  (voc_match W (lang s) u "fahrenheit" = true ->
     wc_settings (config i) !! "units" = Some "imperial")
  /\ (voc_match W (lang s) u "fahrenheit" = false ->
      voc_match W (lang s) u "celsius" = true ->
      wc_settings (config i) !! "units" = Some "metric").
Proof.
  intros Hout Hunit Htruthy.
  destruct (WeatherIntent_new_cases W message (effective_config s (Some message)))
    as [[i0 Hi0]|Hbad].
  - unfold outcome, _get_intent_data, bind, attempt, lift, get, ret in Hout.
    rewrite get_weather_config_run, Hi0 in Hout. simpl in Hout.
    rewrite Hunit, Htruthy in Hout. simpl in Hout.
    split.
    + intros Hf. rewrite Hf in Hout. inversion Hout; subst i. simpl.
      apply lookup_insert_eq.
    + intros Hf Hc. rewrite Hf, Hc in Hout. inversion Hout; subst i. simpl.
      apply lookup_insert_eq.
  - unfold outcome in Hout.
    rewrite (get_intent_data_malformed W s message Hbad) in Hout. discriminate.
Qed.

(** The configuration of the descriptor [_get_intent_data] returns: the
    configuration that was resolved, with the unit override in its
    settings. *)
Lemma get_intent_data_config W s message i :
  outcome (_get_intent_data W message) s = Ok (Some i) ->
  core_config (config i) = resolve_config s (Some message)
  /\ wc_settings (config i) = unit_override (voc_match W (lang s)) (unit_slot message).
Proof.
  intros Hout.
  destruct (WeatherIntent_new_cases W message (effective_config s (Some message)))
    as [[i0 Hi0]|Hbad].
  2:{ unfold outcome in Hout.
      rewrite (get_intent_data_malformed W s message Hbad) in Hout. discriminate. }
  destruct (WeatherIntent_new_location _ _ _ _ Hi0) as [_ Hc0].
  unfold outcome, _get_intent_data, bind, attempt, lift, get, ret in Hout.
  rewrite get_weather_config_run, Hi0 in Hout. simpl in Hout.
  inversion Hout as [Hi]. clear Hout Hi.
  unfold unit_override, truthy.
  destruct (voc_match W (lang s) (i_utterance i0) "relative-time");
    destruct (voc_match W (lang s) (i_utterance i0) "later");
    destruct (voc_match W (lang s) (i_utterance i0) "relative-day");
    destruct (voc_match W (lang s) (i_utterance i0) "today");
    (destruct (unit_slot message) as [u|];
     [destruct (String.eqb u ""); simpl;
      destruct (voc_match W (lang s) u "fahrenheit");
      destruct (voc_match W (lang s) u "celsius")|]);
    simpl; rewrite Hc0; simpl; rewrite ?insert_empty; split; reflexivity.
Qed.

(** What [_get_intent_data] leaves of the skill besides the stored
    configuration: everything, but for the fallback of a malformed query. *)
Lemma get_intent_data_frame W s message :
  let s' := state_after (_get_intent_data W message) s in
  lang s' = lang s /\ gui_connected s' = gui_connected s /\ bus s' = bus s
  /\ display s' = display s /\ log s' = log s
  /\ (forall i, outcome (_get_intent_data W message) s = Ok (Some i) ->
      spoken s' = spoken s).
Proof.
  intros s'. subst s'. unfold state_after, outcome.
  destruct (WeatherIntent_new_cases W message (effective_config s (Some message)))
    as [[i0 Hi0]|Hbad].
  - destruct (get_intent_data_ok W s message i0 Hi0) as (i & Hrun & _).
    rewrite Hrun. simpl. repeat split; reflexivity.
  - rewrite (get_intent_data_malformed W s message Hbad). simpl.
    repeat split; try reflexivity. intros i Hi. discriminate Hi.
Qed.

(** The unit slot of the message leaves no trace in the skill. *)
Lemma get_intent_data_unit_slot W s message u :
  state_after (_get_intent_data W (set_unit_slot u message)) s =
  state_after (_get_intent_data W message) s.
Proof.
  unfold state_after.
  destruct (WeatherIntent_new_cases W message (effective_config s (Some message)))
    as [[i0 Hi0]|Hbad].
  - destruct (get_intent_data_ok W s message i0 Hi0) as (i & Hrun & _).
    destruct (get_intent_data_ok W s (set_unit_slot u message) i0 Hi0)
      as (i' & Hrun' & _).
    rewrite Hrun, Hrun'. reflexivity.
  - rewrite (get_intent_data_malformed W s message Hbad).
    rewrite (get_intent_data_malformed W s (set_unit_slot u message) Hbad).
    reflexivity.
Qed.

(** C9, amended: resolving the configuration of a request leaves the skill
    settings as they were but writes into the stored configuration, which is
    the dict the merge is done in.  The language becomes that of the request;
    the system unit becomes the skill's units setting unless that is absent,
    empty or "default"; the coordinate becomes that of the message unless the
    message carries none or one with a zero latitude or longitude; the time
    format stays.  These writes stay for later requests, and nothing else of
    the skill changes.  The unit override of the request (imperial for a unit
    slot in the Fahrenheit vocabulary, else metric for one in the Celsius
    vocabulary, else none) is written to the settings of the descriptor's own
    configuration and to nothing in the skill: whatever the unit slot, the
    request leaves the same skill behind. *)
Theorem config_resolution_writes_store W s message :
  let s' := state_after (_get_intent_data W message) s in
  settings s' = settings s
  /\ config_core s' = resolve_config s (Some message)
  /\ config_core s' = config_core (state_after (_get_weather_config (Some message)) s)
  /\ cfg_lang (config_core s') = lang s
  /\ cfg_time_format (config_core s') = cfg_time_format (config_core s)
  /\ (settings s !! "units" = None ->
      cfg_system_unit (config_core s') = cfg_system_unit (config_core s))
  /\ (forall units, settings s !! "units" = Some units ->
      units <> "" -> units <> "default" ->
      cfg_system_unit (config_core s') = units)
  /\ (lat_lon message = None ->
      cfg_coordinate (config_core s') = cfg_coordinate (config_core s))
  /\ (forall la lo, lat_lon message = Some (la, lo) -> la <> 0 -> lo <> 0 ->
      cfg_coordinate (config_core s') = {| latitude := la; longitude := lo |})
  /\ (forall i u,
        outcome (_get_intent_data W message) s = Ok (Some i) ->
        unit_slot message = Some u -> truthy u = true ->
        voc_match W (lang s) u "fahrenheit" = true ->
        wc_settings (config i) !! "units" = Some "imperial")
  /\ (forall units, settings s !! "units" = Some units ->
      units = "" \/ units = "default" ->
      cfg_system_unit (config_core s') = cfg_system_unit (config_core s))
  /\ (forall la lo, lat_lon message = Some (la, lo) -> la = 0 \/ lo = 0 ->
      cfg_coordinate (config_core s') = cfg_coordinate (config_core s))
  /\ (forall i u,
        outcome (_get_intent_data W message) s = Ok (Some i) ->
        unit_slot message = Some u -> u <> "" ->
        voc_match W (lang s) u "fahrenheit" = false ->
        voc_match W (lang s) u "celsius" = true ->
        wc_settings (config i) !! "units" = Some "metric")
  /\ (forall i,
        outcome (_get_intent_data W message) s = Ok (Some i) ->
        core_config (config i) = config_core s'
        /\ wc_settings (config i) =
             unit_override (voc_match W (lang s)) (unit_slot message))
  /\ (lang s' = lang s /\ gui_connected s' = gui_connected s /\ bus s' = bus s
      /\ display s' = display s /\ log s' = log s
      /\ (forall i, outcome (_get_intent_data W message) s = Ok (Some i) ->
          spoken s' = spoken s))
  /\ (forall u, state_after (_get_intent_data W (set_unit_slot u message)) s = s').
Proof.
  intros s'.
  destruct (get_intent_data_state W s message) as (Hc & Hs & _).
  pose proof (get_intent_data_frame W s message) as Hframe.
  fold s' in Hc, Hs, Hframe. rewrite Hc.
  split; [exact Hs|]. split; [reflexivity|]. split; [reflexivity|].
  unfold resolve_config. simpl.
  split; [reflexivity|]. split; [reflexivity|].
  split; [intros Hn; rewrite Hn; reflexivity|].
  split.
  { intros units Hu Hne Hnd. rewrite Hu.
    assert (Ht : truthy units && negb (String.eqb units "default") = true).
    { unfold truthy. destruct (String.eqb_spec units ""); [contradiction|].
      destruct (String.eqb_spec units "default"); [contradiction|reflexivity]. }
    rewrite Ht. reflexivity. }
  split; [intros Hl; rewrite Hl; reflexivity|].
  split.
  { intros la lo Hl Hla Hlo. rewrite Hl. simpl.
    destruct (Z.eqb_spec la 0); [contradiction|].
    destruct (Z.eqb_spec lo 0); [contradiction|]. reflexivity. }
  split.
  { intros i u Hout Hunit Htruthy Hf.
    exact (proj1 (unit_override_in_descriptor W s message i u Hout Hunit Htruthy) Hf). }
  split.
  { intros units Hu [-> | ->]; rewrite Hu; reflexivity. }
  split.
  { intros la lo Hl Hzero. rewrite Hl. simpl.
    destruct Hzero as [-> | ->]; [reflexivity|].
    destruct (Z.eqb la 0); reflexivity. }
  split.
  { intros i u Hout Hunit Hne Hf Hcel.
    assert (Ht : truthy u = true).
    { unfold truthy. destruct (String.eqb_spec u ""); [contradiction|reflexivity]. }
    exact (proj2 (unit_override_in_descriptor W s message i u Hout Hunit Ht) Hf Hcel). }
  split.
  { intros i Hout.
    destruct (get_intent_data_config W s message i Hout) as [H1 H2].
    split; [exact H1|exact H2]. }
  split; [exact Hframe|].
  intros u. apply get_intent_data_unit_slot.
Qed.

(** ** The day count of an N-day request *)

(** C10: the N-day handler reports a multi-day forecast for 2 days when the
    utterance matches the "couple" vocabulary, for 3 days when it matches
    "few" and not "couple", and otherwise for the number extracted from the
    utterance, converted by [int]. *)
Theorem number_of_days_by_vocabulary W s message :
  let voc := voc_match W (lang s) (utterance message) in
  let extracted := extract_number W (utterance message) (lang s) in
  (voc "couple" = true ->
     handle_number_days_forecast W message s = _report_multi_day_forecast W message 2 s)
  /\ (voc "couple" = false -> voc "few" = true ->
      handle_number_days_forecast W message s = _report_multi_day_forecast W message 3 s)
  /\ (voc "couple" = false -> voc "few" = false ->
      handle_number_days_forecast W message s =
        _report_multi_day_forecast W message (py_int extracted) s)
  /\ (forall n, voc "couple" = false -> voc "few" = false -> extracted = PInt n ->
      handle_number_days_forecast W message s = _report_multi_day_forecast W message n s).
Proof.
  intros voc extracted.
  unfold handle_number_days_forecast, bind, get, number_of_days.
  fold voc. fold extracted.
  repeat split.
  - intros Hc. rewrite Hc. reflexivity.
  - intros Hc Hf. rewrite Hc, Hf. reflexivity.
  - intros Hc Hf. rewrite Hc, Hf. reflexivity.
  - intros n Hc Hf He. rewrite Hc, Hf, He. reflexivity.
Qed.

(** ** The theorems at work *)

(** "weather today" matches relative-day and "today": the timeframe stays
    current. *)
Lemma timeframe_resolution_order_witness :
  exists i,
    outcome (_get_intent_data (sample_world (Ok sample_report))
               (say "what is the weather today")) sample_skill = Ok (Some i)
    /\ timeframe i = CURRENT.
Proof.
  destruct (timeframe_resolution_order (sample_world (Ok sample_report)) sample_skill
              (say "what is the weather today") _ eq_refl)
    as (i & Hrun & Ht & _).
  exists i. split; [exact Hrun|]. rewrite Ht. vm_compute. reflexivity.
Defined.

(** A ten-day request: the notice once, then seven daily dialogs. *)
Lemma more_than_seven_days_witness :
  7 < 10
  /\ notices "seven-days-available"
       (spoken (state_after
                  (_report_multi_day_forecast (sample_world (Ok sample_report))
                     (say "what is the 10 day forecast") 10) sample_skill)) = 1%nat
  /\ length (py_slice (daily sample_report) 1 8) = 7%nat.
Proof.
  split; [lia|].
  destruct (more_than_seven_days (sample_world (Ok sample_report)) sample_skill
              (say "what is the 10 day forecast") 10 _ sample_report
              eq_refl eq_refl ltac:(lia))
    as (_ & _ & _ & Hn & Hl).
  split; [exact Hn|]. apply Hl. reflexivity.
Defined.

(** Fifty hours ahead: only the notice. *)
Lemma hour_beyond_window_witness :
  48 < 50
  /\ spoken (state_after
               (_report_one_hour_weather (sample_world (Ok sample_report))
                  (say "what is the weather in 50 hours")) sample_skill)
     = [notice "forty-eight-hours-available" []].
Proof.
  split; [lia|].
  destruct (hour_beyond_window (sample_world (Ok sample_report)) sample_skill
              (say "what is the weather in 50 hours") _ sample_report 50
              eq_refl eq_refl eq_refl ltac:(lia))
    as (_ & _ & Hs & _).
  exact Hs.
Defined.

(** Status 401 and status 500 in a current-weather request. *)
Lemma http_error_signal_witness :
  (bus (state_after
          (handle (sample_world (Raise (HTTPError (Some 401)))) current_weather
             (say "what is the weather")) sample_skill) = [not_paired]
   /\ spoken (state_after
                (handle (sample_world (Raise (HTTPError (Some 401)))) current_weather
                   (say "what is the weather")) sample_skill) = [])
  /\ (spoken (state_after
                (handle (sample_world (Raise (HTTPError (Some 500)))) current_weather
                   (say "what is the weather")) sample_skill)
        = [notice "cant-get-forecast" []]
      /\ bus (state_after
                (handle (sample_world (Raise (HTTPError (Some 500)))) current_weather
                   (say "what is the weather")) sample_skill) = []).
Proof.
  destruct (http_error_signal (sample_world (Raise (HTTPError (Some 401))))
              (say "what is the weather") sample_skill 401) as [Hvoice401 _].
  destruct (http_error_signal (sample_world (Raise (HTTPError (Some 500))))
              (say "what is the weather") sample_skill 500) as [Hvoice500 _].
  split.
  - destruct (Hvoice401 current_weather _ eq_refl eq_refl) as (_ & H & _).
    apply H. reflexivity.
  - destruct (Hvoice500 current_weather _ eq_refl eq_refl) as (_ & _ & H).
    apply H. lia.
Defined.

(** A place that does not exist, asked of the current weather; a place the
    provider does not find, asked of the week summary; and the home-screen
    API with the provider down. *)
Lemma failure_is_one_fallback_witness :
  spoken (state_after
            (handle (sample_world (Ok sample_report)) current_weather
               {| utterance := "what is the weather in nowhere";
                  unit_slot := None; lat_lon := None;
                  location := Some "nowhere" |}) sample_skill)
    = [notice "cant-get-forecast" []]
  /\ spoken (state_after
               (handle (sample_world (Raise LocationNotFoundError)) week_summary
                  {| utterance := "what is the weather in atlantis this week";
                     unit_slot := None; lat_lon := None;
                     location := Some "atlantis" |}) sample_skill)
     = [notice "location-not-found" [("location", Some "atlantis")]]
  /\ outcome (get_current_weather_homescreen
                (sample_world (Raise (HTTPError (Some 500)))) None) sample_skill
     = Ok None.
Proof.
  destruct (failure_is_one_fallback (sample_world (Ok sample_report))
              {| utterance := "what is the weather in nowhere";
                 unit_slot := None; lat_lon := None;
                 location := Some "nowhere" |} sample_skill) as (Hbad & _).
  destruct (failure_is_one_fallback (sample_world (Raise LocationNotFoundError))
              {| utterance := "what is the weather in atlantis this week";
                 unit_slot := None; lat_lon := None;
                 location := Some "atlantis" |} sample_skill) as (_ & Hfetch & _).
  destruct (failure_is_one_fallback (sample_world (Raise (HTTPError (Some 500))))
              (say "what is the weather") sample_skill) as (_ & _ & _ & Hhome).
  split; [|split].
  - destruct (Hbad current_weather eq_refl) as (_ & _ & H). exact H.
  - destruct (Hfetch week_summary _ LocationNotFoundError eq_refl eq_refl)
      as (_ & H & _).
    exact H.
  - destruct (Hhome None (HTTPError (Some 500)) eq_refl) as (H & _). exact H.
Defined.

(** "What is the weather", with the report fetched. *)
Lemma current_weather_two_dialogs_witness :
  exists i,
    spoken (state_after
              (_report_current_weather (sample_world (Ok sample_report))
                 (say "what is the weather")) sample_skill)
    = [weather_speech (CurrentDialog_weather i (current sample_report));
       weather_speech (CurrentDialog_high_low_temperature i (current sample_report))].
Proof.
  eexists.
  apply (current_weather_two_dialogs (sample_world (Ok sample_report)) sample_skill
           (say "what is the weather") _ sample_report eq_refl eq_refl).
Defined.

(** A request from elsewhere in Fahrenheit: the coordinates are stored, the
    unit is not. *)
Lemma config_resolution_writes_store_witness :
  cfg_coordinate
    (config_core (state_after
                    (_get_intent_data (sample_world (Ok sample_report))
                       sample_message_elsewhere) sample_skill))
  = {| latitude := 40712000; longitude := -74006000 |}
  /\ settings (state_after
                 (_get_intent_data (sample_world (Ok sample_report))
                    sample_message_elsewhere) sample_skill) = settings sample_skill.
Proof.
  destruct (config_resolution_writes_store (sample_world (Ok sample_report))
              sample_skill sample_message_elsewhere)
    as (Hs & _ & _ & _ & _ & _ & _ & _ & Hc & _).
  split; [|exact Hs].
  apply (Hc 40712000 (-74006000) eq_refl); lia.
Defined.

(** "A couple of days" is two days; "10 day" is ten. *)
Lemma number_of_days_by_vocabulary_witness :
  handle_number_days_forecast (sample_world (Ok sample_report))
    (say "forecast for the next couple of days") sample_skill
  = _report_multi_day_forecast (sample_world (Ok sample_report))
      (say "forecast for the next couple of days") 2 sample_skill
  /\ handle_number_days_forecast (sample_world (Ok sample_report))
       (say "what is the 10 day forecast") sample_skill
     = _report_multi_day_forecast (sample_world (Ok sample_report))
         (say "what is the 10 day forecast") 10 sample_skill.
Proof.
  destruct (number_of_days_by_vocabulary (sample_world (Ok sample_report)) sample_skill
              (say "forecast for the next couple of days")) as (Hcouple & _).
  destruct (number_of_days_by_vocabulary (sample_world (Ok sample_report)) sample_skill
              (say "what is the 10 day forecast")) as (_ & _ & _ & Hnumber).
  split.
  - apply Hcouple. reflexivity.
  - apply (Hnumber 10); reflexivity.
Defined.

(** The home-screen API with the provider answering 401 emits no
    re-pairing signal; with the provider answering 500 it speaks no
    fallback. *)
Lemma homescreen_unauthorized_no_signal :
  get_report (sample_world (Raise (HTTPError (Some 401))))
    (effective_config sample_skill None) = Raise (HTTPError (Some 401))
  /\ bus (state_after (get_current_weather_homescreen
                         (sample_world (Raise (HTTPError (Some 401)))) None)
            sample_skill) = []
  /\ spoken (state_after (get_current_weather_homescreen
                            (sample_world (Raise (HTTPError (Some 500)))) None)
               sample_skill) = [].
Proof. repeat split. Qed.

(** The home-screen API swallows a failed fetch: it returns nothing and the
    user perceives nothing. *)
Lemma homescreen_failure_is_silent :
  request_fails (sample_world (Raise (HTTPError (Some 500)))) sample_skill None
  /\ outcome (get_current_weather_homescreen
                (sample_world (Raise (HTTPError (Some 500)))) None) sample_skill = Ok None
  /\ ~ user_visible_signal sample_skill
         (state_after (get_current_weather_homescreen
                         (sample_world (Raise (HTTPError (Some 500)))) None) sample_skill).
Proof.
  split; [right; exists (HTTPError (Some 500)); reflexivity|].
  split; [reflexivity|].
  unfold user_visible_signal. simpl. intros [H|[H|H]]; apply H; reflexivity.
Qed.

(** With the hash of [PYTHONHASHSEED=0], "Rain" sits in slot 2 and "Clear" in
    slot 4: a week that starts clear and turns to rain has its rain dialog
    first. *)
Lemma weekly_order_not_first_occurrence :
  map dialog_condition
    (@_build_weekly_condition_dialogs (cpython_order sample_hash)
       [sample_snapshot 24 "Clear"; sample_snapshot 48 "Rain";
        sample_snapshot 72 "Clear"] sample_intent)
  = [Some "Rain"; Some "Clear"]
  /\ map dialog_condition
       (@_build_weekly_condition_dialogs (cpython_order sample_hash)
          [sample_snapshot 24 "Clear"; sample_snapshot 48 "Rain";
           sample_snapshot 72 "Clear"] sample_intent)
     <> map Some
          (first_occurrences
             (categories [sample_snapshot 24 "Clear"; sample_snapshot 48 "Rain";
                          sample_snapshot 72 "Clear"])).
Proof.
  split; [vm_compute; reflexivity|].
  vm_compute. discriminate.
Qed.

(** The coordinates of one request are still in the stored configuration
    when the next request, which carries none, resolves its own. *)
Lemma config_resolution_changes_store :
  config_core (state_after
                 (_get_intent_data (sample_world (Ok sample_report))
                    sample_message_elsewhere) sample_skill)
  <> config_core sample_skill
  /\ cfg_coordinate
       (core_config
          (effective_config
             (state_after
                (_get_intent_data (sample_world (Ok sample_report))
                   sample_message_elsewhere) sample_skill)
             (Some (say "what is the weather"))))
     = {| latitude := 40712000; longitude := -74006000 |}.
Proof.
  split; [vm_compute; discriminate|reflexivity].
Qed.

(** ** The clock on the screens *)

Lemma forallb_below (n : nat) (P : nat -> bool) :
  forallb P (seq 0 n) = true -> forall k, (k < n)%nat -> P k = true.
Proof.
  intros H k Hk. apply (proj1 (forallb_forall P (seq 0 n)) H).
  apply in_seq. lia.
Qed.

(** A check that holds at every hour and minute of the day holds at every
    valid time. *)
Lemma every_time (P : nat -> nat -> bool) :
  forallb (fun h => forallb (P h) (seq 0 60)) (seq 0 24) = true ->
  forall h m, (h < 24)%nat -> (m < 60)%nat -> P h m = true.
Proof.
  intros H h m Hh Hm.
  apply (forallb_below 60 (P h)); [|exact Hm].
  exact (forallb_below 24 (fun h => forallb (P h) (seq 0 60)) H h Hh).
Qed.

Lemma strftime_I_M t :
  strftime "%I:%M" t = two_digits (hour12 t) +:+ ":" +:+ two_digits (minute t).
Proof. cbv -[two_digits hour12 minute String.append]. reflexivity. Qed.

Lemma strftime_H_M t :
  strftime "%H:%M" t = two_digits (hour t) +:+ ":" +:+ two_digits (minute t).
Proof. cbv -[two_digits hour minute String.append]. reflexivity. Qed.

(** The display of hour [h], minute [m] on the twelve-hour clock
    ([twelve_hour = true]) or the 24-hour clock. *)
Definition clock_display (twelve_hour : bool) (h m : nat) : string :=
  if twelve_hour then
    let display_time := two_digits (hour12 {| weekday := 0; hour := h; minute := m |})
                        +:+ ":" +:+ two_digits m in
    if String.prefix "0" display_time then py_tail display_time else display_time
  else two_digits h +:+ ":" +:+ two_digits m.

(** Only the time format of the skill and the hour and minute of the time
    enter the display. *)
Lemma format_sunrise_sunset_time_reads s t :
  _format_sunrise_sunset_time s t =
  clock_display (String.eqb (cfg_time_format (config_core s)) TWELVE_HOUR)
    (hour t) (minute t).
Proof.
  unfold _format_sunrise_sunset_time, clock_display.
  rewrite strftime_I_M, strftime_H_M. reflexivity.
Qed.

Lemma hour12_range t : (1 <= hour12 t <= 12)%nat.
Proof.
  unfold hour12. pose proof (Nat.mod_upper_bound (hour t) 12 ltac:(lia)).
  destruct (Nat.eqb_spec (hour t mod 12) 0); lia.
Qed.

Definition twelve_hour_check (h m : nat) : bool :=
  let t := {| weekday := 0; hour := h; minute := m |} in
  String.eqb (clock_display true h m) (py_str (hour12 t) +:+ ":" +:+ two_digits m)
  && negb (String.prefix "0" (clock_display true h m)).

Lemma twelve_hour_check_all :
  forallb (fun h => forallb (twelve_hour_check h) (seq 0 60)) (seq 0 24) = true.
Proof. vm_compute. reflexivity. Qed.

(** X1: with the twelve-hour clock configured, a sunrise or sunset is shown
    as the hour on the twelve-hour clock (1 to 12) without a leading zero, a
    colon, and the minute in two digits. *)
Theorem sunrise_sunset_twelve_hour s t :
  cfg_time_format (config_core s) = TWELVE_HOUR ->
  valid_time t ->
  _format_sunrise_sunset_time s t =
    py_str (hour12 t) +:+ ":" +:+ two_digits (minute t)
  /\ String.prefix "0" (_format_sunrise_sunset_time s t) = false
  /\ (1 <= hour12 t <= 12)%nat.
Proof.
  intros Hfmt (_ & Hh & Hm).
  rewrite format_sunrise_sunset_time_reads, Hfmt, String.eqb_refl.
  pose proof (every_time twelve_hour_check twelve_hour_check_all
                (hour t) (minute t) Hh Hm) as Hall.
  unfold twelve_hour_check in Hall.
  apply andb_prop in Hall. destruct Hall as [Heq Hpre].
  apply String.eqb_eq in Heq. apply negb_true_iff in Hpre.
  split; [exact Heq|]. split; [exact Hpre|apply hour12_range].
Qed.

Definition read_back_check (twelve_hour : bool) (h m : nat) : bool :=
  let t := {| weekday := 0; hour := h; minute := m |} in
  let shown := read_clock (clock_display twelve_hour h m) in
  Nat.eqb (fst shown) (if twelve_hour then hour12 t else h) && Nat.eqb (snd shown) m.

Lemma read_back_check_all twelve_hour :
  forallb (fun h => forallb (read_back_check twelve_hour h) (seq 0 60)) (seq 0 24) = true.
Proof. destruct twelve_hour; vm_compute; reflexivity. Qed.

(** The display read back: the hour shown and the minute. *)
Lemma read_sunrise_sunset_time s t :
  valid_time t ->
  read_clock (_format_sunrise_sunset_time s t) =
  (if String.eqb (cfg_time_format (config_core s)) TWELVE_HOUR
   then hour12 t else hour t, minute t).
Proof.
  intros (_ & Hh & Hm).
  rewrite format_sunrise_sunset_time_reads.
  pose proof (every_time _ (read_back_check_all
                (String.eqb (cfg_time_format (config_core s)) TWELVE_HOUR))
                (hour t) (minute t) Hh Hm) as Hall.
  unfold read_back_check in Hall.
  apply andb_prop in Hall. destruct Hall as [H1 H2].
  apply Nat.eqb_eq in H1, H2.
  destruct (read_clock _) as [h' m']. cbn [fst snd] in H1, H2. subst h' m'.
  reflexivity.
Qed.

Lemma hour12_eq_iff t1 t2 :
  hour12 t1 = hour12 t2 <-> (hour t1 mod 12 = hour t2 mod 12)%nat.
Proof.
  unfold hour12.
  pose proof (Nat.mod_upper_bound (hour t1) 12 ltac:(lia)).
  pose proof (Nat.mod_upper_bound (hour t2) 12 ltac:(lia)).
  destruct (Nat.eqb_spec (hour t1 mod 12) 0), (Nat.eqb_spec (hour t2 mod 12) 0); lia.
Qed.

(** X2: two valid times are shown alike exactly when they have the same
    minute and, on the 24-hour clock, the same hour; on the twelve-hour clock
    the same hour modulo 12: the display carries no AM or PM, so a time and
    the time twelve hours later look the same. *)
Theorem sunrise_sunset_same_display s t1 t2 :
  valid_time t1 -> valid_time t2 ->
  (_format_sunrise_sunset_time s t1 = _format_sunrise_sunset_time s t2 <->
   minute t1 = minute t2 /\
   if String.eqb (cfg_time_format (config_core s)) TWELVE_HOUR
   then (hour t1 mod 12 = hour t2 mod 12)%nat
   else hour t1 = hour t2).
Proof.
  intros Hv1 Hv2. split.
  - intros Heq.
    pose proof (read_sunrise_sunset_time s t1 Hv1) as H1.
    pose proof (read_sunrise_sunset_time s t2 Hv2) as H2.
    rewrite Heq, H2 in H1.
    destruct (String.eqb (cfg_time_format (config_core s)) TWELVE_HOUR);
      inversion H1 as [[Hh Hm]]; split; auto.
    apply hour12_eq_iff. auto.
  - intros [Hm Hh].
    rewrite (format_sunrise_sunset_time_reads s t1),
            (format_sunrise_sunset_time_reads s t2).
    destruct (String.eqb (cfg_time_format (config_core s)) TWELVE_HOUR).
    + apply hour12_eq_iff in Hh. unfold clock_display.
      change (hour12 {| weekday := 0; hour := hour t1; minute := minute t1 |})
        with (hour12 t1).
      change (hour12 {| weekday := 0; hour := hour t2; minute := minute t2 |})
        with (hour12 t2).
      rewrite Hh, Hm. reflexivity.
    + rewrite Hh, Hm. reflexivity.
Qed.

(** ** The rows of the hourly and daily screens *)

Lemma py_slice_1_5 {A} (l : list A) : py_slice l 1 5 = take 4 (drop 1 l).
Proof.
  unfold py_slice. destruct l as [|x l]; [reflexivity|].
  cbn [length]. rewrite Nat2Z.inj_succ.
  change (1 <? 0)%Z with false. change (5 <? 0)%Z with false. cbv iota.
  replace (Z.min 1 (Z.succ (Z.of_nat (length l)))) with 1%Z by lia.
  change (Z.to_nat 1) with 1%nat. cbn [drop]. rewrite drop_0.
  destruct (decide (length l <= 4)%nat) as [Hle|Hgt].
  - rewrite !take_ge by lia. reflexivity.
  - f_equal. lia.
Qed.

(** The label of an hour as [_display_hourly_forecast] computes it, on the
    twelve-hour clock ([twelve_hour = true]) or the 24-hour clock. *)
Definition hour_label (twelve_hour : bool) (t : DateTime) : string :=
  let formatted_time :=
    if twelve_hour then
      let hour := py_int_digits (strftime "%I" t) in
      let am_pm := strftime " %p" t in
      py_str hour +:+ am_pm
    else strftime "%H:00" t in
  strftime formatted_time t.

(** What the label reads: the hour without leading zero and AM or PM, or
    the hour in two digits and ":00". *)
Definition hour_label_shown (twelve_hour : bool) (t : DateTime) : string :=
  if twelve_hour then
    py_str (hour12 t) +:+ (if (hour t <? 12)%nat then " AM" else " PM")
  else two_digits (hour t) +:+ ":00".

Definition hour_label_check (twelve_hour : bool) (w h m : nat) : bool :=
  let t := {| weekday := w; hour := h; minute := m |} in
  String.eqb (hour_label twelve_hour t) (hour_label_shown twelve_hour t).

Lemma hour_label_check_all twelve_hour :
  forallb (fun w => forallb (fun h => forallb (hour_label_check twelve_hour w h) (seq 0 60))
                      (seq 0 24)) (seq 0 7) = true.
Proof. destruct twelve_hour; vm_compute; reflexivity. Qed.

Lemma hour_label_reads twelve_hour t :
  valid_time t -> hour_label twelve_hour t = hour_label_shown twelve_hour t.
Proof.
  destruct t as [w h m]. intros (Hw & Hh & Hm). cbn [weekday hour minute] in *.
  apply String.eqb_eq.
  change (hour_label_check twelve_hour w h m = true).
  apply (forallb_below 60 (hour_label_check twelve_hour w h)); [|exact Hm].
  apply (forallb_below 24
           (fun h => forallb (hour_label_check twelve_hour w h) (seq 0 60))); [|exact Hh].
  exact (forallb_below 7 _ (hour_label_check_all twelve_hour) w Hw).
Qed.

Definition hour_label_distinct_check (twelve_hour : bool) (h1 h2 : nat) : bool :=
  implb (String.eqb
           (hour_label_shown twelve_hour {| weekday := 0; hour := h1; minute := 0 |})
           (hour_label_shown twelve_hour {| weekday := 0; hour := h2; minute := 0 |}))
        (Nat.eqb h1 h2).

Lemma hour_label_distinct_check_all twelve_hour :
  forallb (fun h1 => forallb (hour_label_distinct_check twelve_hour h1) (seq 0 24))
    (seq 0 24) = true.
Proof. destruct twelve_hour; vm_compute; reflexivity. Qed.

Lemma hour_label_shown_reads twelve_hour t :
  hour_label_shown twelve_hour t =
  hour_label_shown twelve_hour {| weekday := 0; hour := hour t; minute := 0 |}.
Proof. reflexivity. Qed.


Section ScreenRows.

Context (wall_clock : Z -> DateTime) (animated_code : Condition -> string)
  (chance_of_precipitation : Weather -> Z).

Abbreviation row := (hourly_row wall_clock animated_code chance_of_precipitation).
Abbreviation loop := (hourly_forecast_loop wall_clock animated_code chance_of_precipitation).

(** From entry 1 on, the loop appends the rows of the entries up to the one
    numbered 4. *)
Lemma hourly_forecast_loop_from s k l acc :
  (1 <= k)%nat ->
  loop s k l acc = acc ++ map (row s) (take (5 - k) l).
Proof.
  revert k acc. induction l as [|x l IH]; intros k acc Hk.
  - rewrite take_nil, app_nil_r. reflexivity.
  - cbn [hourly_forecast_loop].
    destruct (Nat.eqb_spec k 0) as [?|_]; [lia|].
    destruct (Nat.ltb_spec 4 k) as [Hbreak|Hgo].
    + replace (5 - k)%nat with 0%nat by lia. rewrite app_nil_r. reflexivity.
    + rewrite IH by lia.
      replace (5 - k)%nat with (S (5 - S k)) by lia.
      cbn [take map]. rewrite <- app_assoc. reflexivity.
Qed.

(** X3: the hourly screen lists the entries 1 to 4 of the hourly sequence,
    in order: the first entry is skipped, no more than four rows are shown,
    and a sequence of at most one entry gives an empty screen. *)
Theorem hourly_screen_rows s weather :
  hourly_forecast_of wall_clock animated_code chance_of_precipitation s weather =
    map (row s) (py_slice (hourly weather) 1 5)
  /\ length (hourly_forecast_of wall_clock animated_code chance_of_precipitation
               s weather) =
     Nat.min 4 (length (hourly weather) - 1).
Proof.
  assert (H : hourly_forecast_of wall_clock animated_code chance_of_precipitation
                s weather = map (row s) (take 4 (drop 1 (hourly weather)))).
  { unfold hourly_forecast_of. destruct (hourly weather) as [|x l]; [reflexivity|].
    cbn [hourly_forecast_loop Nat.eqb drop].
    rewrite hourly_forecast_loop_from by lia. reflexivity. }
  split.
  - rewrite H, py_slice_1_5. reflexivity.
  - rewrite H, length_map, length_take, length_drop. reflexivity.
Qed.

Lemma hourly_time_label s hourly :
  hourly_time (row s hourly) =
  hour_label (String.eqb (cfg_time_format (config_core s)) TWELVE_HOUR)
    (wall_clock (date_time hourly)).
Proof.
  unfold hourly_row, hour_label. cbn [hourly_time].
  destruct (String.eqb (cfg_time_format (config_core s)) TWELVE_HOUR); reflexivity.
Qed.

(** X4: the time of a row of the hourly screen is, with the twelve-hour
    clock configured, the hour from 1 to 12 without a leading zero followed by
    AM or PM; otherwise the hour in two digits followed by ":00", whatever the
    minute of the snapshot. *)
Theorem hourly_row_time s hourly :
  valid_time (wall_clock (date_time hourly)) ->
  let t := wall_clock (date_time hourly) in
  hourly_time (row s hourly) =
  if String.eqb (cfg_time_format (config_core s)) TWELVE_HOUR
  then py_str (hour12 t) +:+ (if (hour t <? 12)%nat then " AM" else " PM")
  else two_digits (hour t) +:+ ":00".
Proof.
  intros Hv t. rewrite hourly_time_label, (hour_label_reads _ _ Hv).
  reflexivity.
Qed.

(** X5: two rows of the hourly screen carry the same time exactly when
    their snapshots fall in the same hour of the day: in both formats the
    label tells the 24 hours apart and never shows the minutes. *)
Theorem hourly_row_time_identifies_hour s hourly1 hourly2 :
  valid_time (wall_clock (date_time hourly1)) ->
  valid_time (wall_clock (date_time hourly2)) ->
  (hourly_time (row s hourly1) = hourly_time (row s hourly2) <->
   hour (wall_clock (date_time hourly1)) = hour (wall_clock (date_time hourly2))).
Proof.
  intros Hv1 Hv2.
  rewrite !hourly_time_label, (hour_label_reads _ _ Hv1), (hour_label_reads _ _ Hv2).
  rewrite (hour_label_shown_reads _ (wall_clock (date_time hourly1))),
          (hour_label_shown_reads _ (wall_clock (date_time hourly2))).
  destruct Hv1 as (_ & Hh1 & _), Hv2 as (_ & Hh2 & _).
  split.
  - intros Heq.
    pose proof (forallb_below 24 _
      (forallb_below 24 _ (hour_label_distinct_check_all
         (String.eqb (cfg_time_format (config_core s)) TWELVE_HOUR)) _ Hh1) _ Hh2) as Hc.
    unfold hour_label_distinct_check in Hc. rewrite Heq, String.eqb_refl in Hc.
    apply Nat.eqb_eq. exact Hc.
  - intros ->. reflexivity.
Qed.

Abbreviation day_row := (daily_row wall_clock animated_code).

Lemma multi_day_loop_from k l acc :
  (k <= 4)%nat ->
  multi_day_loop wall_clock animated_code k l acc =
  acc ++ map day_row (take (4 - k) l).
Proof.
  revert k acc. induction l as [|x l IH]; intros k acc Hk.
  - rewrite take_nil, app_nil_r. reflexivity.
  - cbn [multi_day_loop].
    destruct (Nat.eqb_spec k 4) as [->|Hne].
    + rewrite app_nil_r. reflexivity.
    + rewrite IH by lia.
      replace (4 - k)%nat with (S (4 - S k)) by lia.
      cbn [take map]. rewrite <- app_assoc. reflexivity.
Qed.

(** X6: the daily screen lists the first four days of the forecast it is
    given, in order, and no more: of the four days after today that the
    current-weather request passes, none is dropped; of a longer forecast, the
    days after the fourth are not shown. *)
Theorem daily_screen_rows forecast :
  _display_multi_day_scalable wall_clock animated_code forecast =
    map day_row (take 4 forecast)
  /\ length (_display_multi_day_scalable wall_clock animated_code forecast) =
     Nat.min 4 (length forecast)
  /\ (forall days : list Weather,
        _display_multi_day_scalable wall_clock animated_code (py_slice days 1 5) =
        map day_row (py_slice days 1 5)).
Proof.
  assert (H : forall l, _display_multi_day_scalable wall_clock animated_code l =
                        map day_row (take 4 l)).
  { intros l. unfold _display_multi_day_scalable.
    rewrite multi_day_loop_from by lia. reflexivity. }
  split; [apply H|]. split.
  - rewrite H, length_map, length_take. reflexivity.
  - intros days. rewrite H, py_slice_1_5, take_take. reflexivity.
Qed.

End ScreenRows.

(** ** Fetching, the home screen and the stored configuration, further *)

(** X7: [_get_weather] returns the report of the fetch exactly when the
    fetch succeeds, and then leaves the skill as it was; without a descriptor
    it returns nothing and does nothing.  It catches whatever the fetch
    raises and answers with one trace: the re-pairing signal for an HTTP error
    of status 401, the "can't get forecast" phrase for any other status and
    for any unexpected exception, the "location not found" phrase with the
    place of the descriptor for a location that is not found.  It raises only
    for an HTTP error without a response, when reading the status raises
    [AttributeError] in the handler.  It never touches the configuration, the
    settings or the screen. *)
Theorem get_weather_contains_exceptions W intent_data s :
  let s' := state_after (_get_weather W intent_data) s in
  let result := outcome (_get_weather W intent_data) s in
  config_core s' = config_core s /\ settings s' = settings s
  /\ display s' = display s
  /\ match intent_data with
     | None => result = Ok None /\ s' = s
     | Some i =>
         match get_report W (config i) with
         | Ok weather => result = Ok (Some weather) /\ s' = s
         | Raise (HTTPError None) =>
             result = Raise AttributeError
             /\ spoken s' = spoken s /\ bus s' = bus s
         | Raise (HTTPError (Some status)) =>
             result = Ok None
             /\ if Z.eqb status 401
                then spoken s' = spoken s /\ bus s' = bus s ++ [not_paired]
                else spoken s' = spoken s ++ [notice "cant-get-forecast" []]
                     /\ bus s' = bus s
         | Raise LocationNotFoundError =>
             result = Ok None
             /\ spoken s' =
                  spoken s ++
                    [notice "location-not-found" [("location", i_location i)]]
             /\ bus s' = bus s
         | Raise _ =>
             result = Ok None
             /\ spoken s' = spoken s ++ [notice "cant-get-forecast" []]
             /\ bus s' = bus s
         end
     end.
Proof.
  intros s' result. subst s' result. unfold state_after, outcome.
  destruct intent_data as [i|]; [|simpl; repeat split; reflexivity].
  destruct (get_report W (config i)) as [weather|e] eqn:Hfetch.
  - rewrite (get_weather_ok W i s weather Hfetch). simpl.
    repeat split; reflexivity.
  - rewrite (get_weather_failed W i s e Hfetch).
    destruct e as [| | |[status|]| |name]; simpl;
      try destruct (Z.eqb status 401); repeat split; reflexivity.
Qed.

(** X8: the home-screen API never raises and never speaks or draws.  When
    the fetch succeeds it emits one weather response on the bus, carrying the
    report it returns, built from the current snapshot; when the fetch raises
    it emits nothing, returns nothing and logs the error.  In both cases the
    configuration it resolved stays in the stored configuration. *)
Theorem homescreen_reports_or_logs W message s :
  let s' := state_after (get_current_weather_homescreen W message) s in
  spoken s' = spoken s /\ display s' = display s /\ settings s' = settings s
  /\ config_core s' = resolve_config s message
  /\ match get_report W (effective_config s message) with
     | Ok weather =>
         exists r,
           outcome (get_current_weather_homescreen W message) s = Ok (Some r)
           /\ bus s' = bus s ++
                [{| msg_type := "skill-ovos-weather.openvoiceos.weather.response";
                    report := Some r |}]
           /\ log s' = log s
           /\ weather_temp r = temperature (current weather)
           /\ high_temperature r = temperature_high (current weather)
           /\ low_temperature r = temperature_low (current weather)
           /\ weather_code r = code (condition (current weather))
           /\ condition_category r = category (condition (current weather))
           /\ condition_description r = description (condition (current weather))
     | Raise _ =>
         outcome (get_current_weather_homescreen W message) s = Ok None
         /\ bus s' = bus s
         /\ log s' = log s ++ ["Unexpected error getting weather for skill API."]
     end.
Proof.
  intros s'. subst s'.
  unfold state_after, outcome, get_current_weather_homescreen, bind, attempt, lift.
  rewrite get_weather_config_run.
  destruct (get_report W (effective_config s message)) as [weather|e]; simpl.
  - repeat split; auto. eexists. repeat split; reflexivity.
  - repeat split; auto.
Qed.

(** X9: coordinates with a zero latitude or a zero longitude are not taken
    from the message: the stored coordinate stays, and the request is
    resolved at it. *)
Theorem zero_coordinate_ignored s message la lo :
  lat_lon message = Some (la, lo) ->
  la = 0 \/ lo = 0 ->
  cfg_coordinate (config_core (state_after (_get_weather_config (Some message)) s))
    = cfg_coordinate (config_core s)
  /\ outcome (_get_weather_config (Some message)) s
     = Ok (effective_config s (Some message))
  /\ cfg_coordinate (core_config (effective_config s (Some message)))
     = cfg_coordinate (config_core s).
Proof.
  intros Hl Hzero.
  unfold state_after, outcome. rewrite get_weather_config_run. simpl.
  unfold resolve_config. rewrite Hl. simpl.
  destruct Hzero as [-> | ->].
  - repeat split; reflexivity.
  - destruct (Z.eqb la 0); repeat split; reflexivity.
Qed.

Lemma resolve_config_again s message :
  resolve_config (set_config_core (resolve_config s message) s) message =
  resolve_config s message.
Proof.
  unfold resolve_config. simpl.
  f_equal.
  - destruct (settings s !! "units") as [units|]; [|reflexivity].
    destruct (truthy units && negb (String.eqb units "default")); reflexivity.
  - destruct (truthy_num _ && truthy_num _); reflexivity.
Qed.

(** X10: resolving the configuration twice for the same message is the same
    as resolving it once: the second call returns the same configuration and
    leaves the skill as the first call left it. *)
Theorem get_weather_config_idempotent message s :
  _get_weather_config message (state_after (_get_weather_config message) s) =
  _get_weather_config message s.
Proof.
  unfold state_after. rewrite !get_weather_config_run. simpl.
  unfold effective_config. rewrite resolve_config_again. reflexivity.
Qed.

(** X11: once a request has been resolved under a skill setting of the
    units, setting the skill units back to "default" does not bring the
    system unit back: the next request is still resolved in the units of the
    former setting. *)
Theorem units_setting_not_restored s message units :
  settings s !! "units" = Some units ->
  units <> "" -> units <> "default" ->
  let s1 := state_after (_get_weather_config message) s in
  let s2 := set_settings (<["units" := "default"]> (settings s1)) s1 in
  cfg_system_unit (config_core s1) = units
  /\ cfg_system_unit (core_config (effective_config s2 message)) = units.
Proof.
  intros Hu Hne Hnd s1 s2. subst s2 s1.
  unfold state_after. rewrite get_weather_config_run. simpl.
  assert (H1 : cfg_system_unit (resolve_config s message) = units).
  { unfold resolve_config. simpl. rewrite Hu. unfold truthy.
    destruct (String.eqb_spec units ""); [contradiction|].
    destruct (String.eqb_spec units "default"); [contradiction|]. reflexivity. }
  split; [exact H1|].
  rewrite lookup_insert_eq. exact H1.
Qed.

(** X12: the coordinates a request carried are used again by a later
    request that carries none. *)
Theorem coordinates_persist W s m1 m2 la lo :
  lat_lon m1 = Some (la, lo) -> la <> 0 -> lo <> 0 ->
  lat_lon m2 = None ->
  let s1 := state_after (_get_intent_data W m1) s in
  cfg_coordinate (core_config (effective_config s1 (Some m2)))
  = {| latitude := la; longitude := lo |}.
Proof.
  intros Hl Hla Hlo Hnone s1.
  destruct (get_intent_data_state W s m1) as (Hc & _).
  fold s1 in Hc. unfold effective_config. cbn [core_config].
  unfold resolve_config at 1. rewrite Hnone. cbn.
  rewrite Hc. unfold resolve_config. rewrite Hl. cbn.
  destruct (Z.eqb_spec la 0); [contradiction|].
  destruct (Z.eqb_spec lo 0); [contradiction|]. reflexivity.
Qed.

(** ** What the handlers show and say, further *)

(** X13: a current-weather request that succeeds drives the display by the
    GUI connection: connected, it shows the current, the hourly and the daily
    page, in this order; not connected, it stops the mouth animation and puts
    the current condition code and temperature on the enclosure, and shows no
    page. *)
Theorem current_weather_screens W s message i weather :
  outcome (_get_intent_data W message) s = Ok (Some i) ->
  get_report W (config i) = Ok weather ->
  let s' := state_after (_report_current_weather W message) s in
  display s' =
  display s ++
    (if gui_connected s then
       [gui_show_page "CurrentWeather.qml"; gui_show_page "HourlyForecast.qml";
        gui_show_page "DailyForecast.qml"]
     else
       [enclosure_deactivate_mouth_events;
        enclosure_weather_display (code (condition (current weather)))
          (temperature (current weather))]).
Proof.
  intros Hintent Hfetch s'.
  subst s'. unfold state_after, _report_current_weather, bind.
  rewrite (get_intent_data_some W s message i Hintent).
  rewrite (get_weather_ok W i _ weather Hfetch).
  unfold _display_current_conditions, bind, get. simpl.
  destruct (gui_connected s) eqn:Hgui; simpl; rewrite ?Hgui; simpl;
    rewrite <- ?app_assoc; reflexivity.
Qed.

(** X14: a week summary that is given the forecast of the week speaks one
    condition dialog for each distinct condition category of the forecast and
    then, last, the temperature dialog: whatever the order of the set, one
    more dialog than there are distinct categories, and the temperature dialog
    alone for an empty forecast.  It shows the daily page once. *)
Theorem week_summary_speech W {order : SetOrder} s message i weather forecast :
  WeatherIntent_new W message (effective_config s (Some message)) = Ok i ->
  get_report W (config i) = Ok weather ->
  get_forecast_for_multiple_days weather 7 = Ok forecast ->
  let s' := state_after (_report_week_summary W message) s in
  outcome (_report_week_summary W message) s = Ok ()
  /\ spoken s' =
       spoken s ++
         map weather_speech (_build_weekly_condition_dialogs forecast i) ++
         [weather_speech (WeeklyDialog_temperature i forecast)]
  /\ length (drop (length (spoken s)) (spoken s')) =
       S (length (first_occurrences (categories forecast)))
  /\ (forecast = [] ->
      spoken s' = spoken s ++ [weather_speech (WeeklyDialog_temperature i [])])
  /\ display s' = display s ++ [gui_show_page "DailyForecast.qml"].
Proof.
  intros Hnew Hfetch Hweek s'.
  assert (Hrun : _report_week_summary W message s =
    (Ok (),
     {| config_core := resolve_config s (Some message); settings := settings s;
        lang := lang s; gui_connected := gui_connected s;
        spoken := spoken s ++
                  map weather_speech
                    (_build_weekly_condition_dialogs forecast i ++
                     [_build_weekly_temperature_dialog forecast i]);
        bus := bus s;
        display := display s ++ [gui_show_page "DailyForecast.qml"];
        log := log s ++ map (fun _ => "Speaking dialog")
                          (_build_weekly_condition_dialogs forecast i ++
                           [_build_weekly_temperature_dialog forecast i]) |})).
  { unfold _report_week_summary, bind, lift.
    rewrite get_weather_config_run, Hnew, (get_weather_ok W i _ weather Hfetch), Hweek.
    unfold _display_multi_day_forecast, show. rewrite speak_all_run. reflexivity. }
  assert (Hset : forall l, NoDup (set_iter l)) by apply set_iter_NoDup.
  subst s'. unfold outcome, state_after. rewrite Hrun. simpl.
  rewrite map_app. simpl. unfold _build_weekly_temperature_dialog.
  split; [reflexivity|]. split; [reflexivity|]. split; [|split; [|reflexivity]].
  - rewrite drop_app_length, length_app, length_map. simpl.
    unfold _build_weekly_condition_dialogs. rewrite length_map.
    fold (categories forecast).
    rewrite Nat.add_1_r. f_equal. apply Permutation_length.
    apply NoDup_Permutation; [apply set_iter_NoDup|apply first_occurrences_from_NoDup|].
    intros x. rewrite set_iter_elem_of. unfold first_occurrences.
    rewrite first_occurrences_from_elem_of. split; [|tauto].
    intros H. split; [assumption|]. intros Hx. inversion Hx.
  - intros ->. unfold _build_weekly_condition_dialogs. simpl.
    assert (Hnil : set_iter [] = []).
    { destruct (set_iter []) as [|x l] eqn:E; [reflexivity|].
      assert (Hx : x ∈ set_iter []) by (rewrite E; left).
      pose proof (proj1 (set_iter_elem_of [] x) Hx) as Hin. inversion Hin. }
    rewrite Hnil. reflexivity.
Qed.

(** X15: a multi-day request whose day count the report can serve speaks
    one daily dialog for each day of the forecast, in the order of the
    forecast, and no "seven days available" notice; it shows the daily page
    whether or not a GUI is connected. *)
Theorem multi_day_in_range W s message days i weather forecast :
  WeatherIntent_new W message (effective_config s (Some message)) = Ok i ->
  get_report W (config i) = Ok weather ->
  get_forecast_for_multiple_days weather days = Ok forecast ->
  let s' := state_after (_report_multi_day_forecast W message days) s in
  outcome (_report_multi_day_forecast W message days) s = Ok ()
  /\ spoken s' =
       spoken s ++ map (fun day => weather_speech (DailyDialog_weather i day)) forecast
  /\ notices "seven-days-available" (drop (length (spoken s)) (spoken s')) = 0%nat
  /\ display s' = display s ++ [gui_show_page "DailyForecast.qml"].
Proof.
  intros Hnew Hfetch Hdays s'.
  subst s'. unfold outcome, state_after, _report_multi_day_forecast, bind, lift.
  rewrite get_weather_config_run, Hnew, (get_weather_ok W i _ weather Hfetch), Hdays.
  unfold _display_multi_day_forecast, show. rewrite speak_all_run. simpl.
  unfold _build_forecast_dialogs. rewrite map_map.
  split; [reflexivity|]. split; [reflexivity|]. split; [|reflexivity].
  rewrite drop_app_length.
  rewrite <- (map_map (DailyDialog_weather i) weather_speech).
  apply notices_weather_speech.
Qed.

(** X16: the unit of a request is overridden from the unit slot only: a
    request without a unit slot, or with an empty one, keeps the configuration
    it resolved, whatever its utterance says; and a unit slot that matches
    both vocabularies is taken as Fahrenheit. *)
Theorem unit_override_rules W s message i :
  outcome (_get_intent_data W message) s = Ok (Some i) ->
  (unit_slot message = None \/ unit_slot message = Some "" ->
   config i = effective_config s (Some message))
  /\ (forall u, unit_slot message = Some u -> u <> "" ->
      voc_match W (lang s) u "fahrenheit" = true ->
      voc_match W (lang s) u "celsius" = true ->
      wc_settings (config i) !! "units" = Some "imperial")
  /\ (forall u, unit_slot message = Some u ->
      voc_match W (lang s) u "fahrenheit" = false ->
      voc_match W (lang s) u "celsius" = false ->
      config i = effective_config s (Some message)).
Proof.
  intros Hout.
  destruct (WeatherIntent_new_cases W message (effective_config s (Some message)))
    as [[i0 Hi0]|Hbad].
  2:{ unfold outcome in Hout.
      rewrite (get_intent_data_malformed W s message Hbad) in Hout. discriminate. }
  destruct (WeatherIntent_new_location _ _ _ _ Hi0) as [_ Hc0].
  unfold outcome, _get_intent_data, bind, attempt, lift, get, ret in Hout.
  rewrite get_weather_config_run, Hi0 in Hout. simpl in Hout.
  split; [|split].
  - intros [Hn|He]; rewrite ?Hn, ?He in Hout; simpl in Hout;
      inversion Hout; subst i;
      destruct (voc_match W (lang s) (i_utterance i0) "relative-time");
      destruct (voc_match W (lang s) (i_utterance i0) "later");
      destruct (voc_match W (lang s) (i_utterance i0) "relative-day");
      destruct (voc_match W (lang s) (i_utterance i0) "today"); exact Hc0.
  - intros u Hu Hne Hf _. rewrite Hu, Hf in Hout.
    assert (Ht : truthy u = true).
    { unfold truthy. destruct (String.eqb_spec u ""); [contradiction|reflexivity]. }
    rewrite Ht in Hout. simpl in Hout. inversion Hout; subst i. simpl.
    apply lookup_insert_eq.
  - intros u Hu Hf Hc. rewrite Hu, Hf, Hc in Hout.
    rewrite !andb_false_r in Hout. inversion Hout; subst i.
    destruct (voc_match W (lang s) (i_utterance i0) "relative-time");
      destruct (voc_match W (lang s) (i_utterance i0) "later");
      destruct (voc_match W (lang s) (i_utterance i0) "relative-day");
      destruct (voc_match W (lang s) (i_utterance i0) "today"); exact Hc0.
Qed.

(** ** The further properties at work *)

(** Five past midnight on the twelve-hour clock. *)
Lemma sunrise_sunset_twelve_hour_witness :
  _format_sunrise_sunset_time sample_skill_twelve_hour
    {| weekday := 2; hour := 0; minute := 5 |} = "12:05".
Proof.
  destruct (sunrise_sunset_twelve_hour sample_skill_twelve_hour
              {| weekday := 2; hour := 0; minute := 5 |} eq_refl
              ltac:(repeat split; simpl; lia)) as (H & _).
  rewrite H. reflexivity.
Defined.

(** Half past six in the morning and in the evening. *)
Lemma sunrise_sunset_same_display_witness :
  _format_sunrise_sunset_time sample_skill_twelve_hour
    {| weekday := 2; hour := 6; minute := 30 |}
  = _format_sunrise_sunset_time sample_skill_twelve_hour
      {| weekday := 2; hour := 18; minute := 30 |}
  /\ _format_sunrise_sunset_time sample_skill
       {| weekday := 2; hour := 6; minute := 30 |}
     <> _format_sunrise_sunset_time sample_skill
          {| weekday := 2; hour := 18; minute := 30 |}.
Proof.
  split.
  - apply (sunrise_sunset_same_display sample_skill_twelve_hour
             {| weekday := 2; hour := 6; minute := 30 |}
             {| weekday := 2; hour := 18; minute := 30 |});
      [repeat split; simpl; lia..|split; reflexivity].
  - intros H.
    apply (sunrise_sunset_same_display sample_skill
             {| weekday := 2; hour := 6; minute := 30 |}
             {| weekday := 2; hour := 18; minute := 30 |}) in H;
      [|repeat split; simpl; lia..].
    destruct H as [_ H]. discriminate H.
Defined.

(** Three in the afternoon on the hourly screen. *)
Lemma hourly_row_time_witness :
  hourly_time (hourly_row sample_clock sample_animated_code sample_precipitation
                 sample_skill_twelve_hour (sample_snapshot 15 "Clear")) = "3 PM"
  /\ hourly_time (hourly_row sample_clock sample_animated_code sample_precipitation
                    sample_skill (sample_snapshot 15 "Clear")) = "15:00".
Proof.
  split.
  - rewrite (hourly_row_time sample_clock sample_animated_code sample_precipitation
               sample_skill_twelve_hour (sample_snapshot 15 "Clear")
               ltac:(repeat split; simpl; lia)).
    reflexivity.
  - rewrite (hourly_row_time sample_clock sample_animated_code sample_precipitation
               sample_skill (sample_snapshot 15 "Clear")
               ltac:(repeat split; simpl; lia)).
    reflexivity.
Defined.

(** Three in the afternoon today and tomorrow: the same label. *)
Lemma hourly_row_time_identifies_hour_witness :
  hourly_time (hourly_row sample_clock sample_animated_code sample_precipitation
                 sample_skill_twelve_hour (sample_snapshot 15 "Clear"))
  = hourly_time (hourly_row sample_clock sample_animated_code sample_precipitation
                   sample_skill_twelve_hour (sample_snapshot 39 "Rain")).
Proof.
  apply (hourly_row_time_identifies_hour sample_clock sample_animated_code
           sample_precipitation sample_skill_twelve_hour
           (sample_snapshot 15 "Clear") (sample_snapshot 39 "Rain"));
    [repeat split; simpl; lia..|reflexivity].
Defined.

(** A request from the equator is resolved at the stored coordinate. *)
Lemma zero_coordinate_ignored_witness :
  cfg_coordinate (core_config (effective_config sample_skill (Some sample_message_equator)))
  = {| latitude := 52520000; longitude := 13405000 |}.
Proof.
  destruct (zero_coordinate_ignored sample_skill sample_message_equator 0 30000000
              eq_refl ltac:(left; reflexivity)) as (_ & _ & H).
  exact H.
Defined.

(** Imperial in the skill settings, then back to default. *)
Lemma units_setting_not_restored_witness :
  cfg_system_unit (config_core sample_skill_imperial) = "metric"
  /\ cfg_system_unit
       (core_config
          (effective_config
             (set_settings
                (<["units" := "default"]>
                   (settings (state_after (_get_weather_config None) sample_skill_imperial)))
                (state_after (_get_weather_config None) sample_skill_imperial))
             None)) = "imperial".
Proof.
  split; [reflexivity|].
  apply (units_setting_not_restored sample_skill_imperial None "imperial");
    [reflexivity|discriminate|discriminate].
Defined.

(** A request from elsewhere, then a request that says nothing of where. *)
Lemma coordinates_persist_witness :
  cfg_coordinate
    (core_config
       (effective_config
          (state_after (_get_intent_data (sample_world (Ok sample_report))
                          sample_message_elsewhere) sample_skill)
          (Some (say "what is the weather"))))
  = {| latitude := 40712000; longitude := -74006000 |}.
Proof.
  apply (coordinates_persist (sample_world (Ok sample_report)) sample_skill
           sample_message_elsewhere (say "what is the weather")
           40712000 (-74006000) eq_refl); [lia|lia|reflexivity].
Defined.

(** The sample skill has no GUI: the enclosure shows code 800 and 20
    degrees. *)
Lemma current_weather_screens_witness :
  display (state_after (_report_current_weather (sample_world (Ok sample_report))
                          (say "what is the weather")) sample_skill)
  = [enclosure_deactivate_mouth_events; enclosure_weather_display 800 20].
Proof.
  apply (current_weather_screens (sample_world (Ok sample_report)) sample_skill
           (say "what is the weather") _ sample_report eq_refl eq_refl).
Defined.

(** The sample week has four kinds of weather: five dialogs. *)
Lemma week_summary_speech_witness :
  length (spoken (state_after
                    (@_report_week_summary (sample_world (Ok sample_report))
                       first_occurrence_order (say "what is the weather this week"))
                    sample_skill)) = 5%nat.
Proof.
  destruct (@week_summary_speech (sample_world (Ok sample_report))
              first_occurrence_order sample_skill
              (say "what is the weather this week") _ sample_report _
              eq_refl eq_refl eq_refl) as (_ & _ & H & _).
  exact H.
Defined.

(** A three-day request: three dialogs and no notice. *)
Lemma multi_day_in_range_witness :
  length (spoken (state_after
                    (_report_multi_day_forecast (sample_world (Ok sample_report))
                       (say "what is the 3 day forecast") 3) sample_skill)) = 3%nat
  /\ notices "seven-days-available"
       (spoken (state_after
                  (_report_multi_day_forecast (sample_world (Ok sample_report))
                     (say "what is the 3 day forecast") 3) sample_skill)) = 0%nat.
Proof.
  destruct (multi_day_in_range (sample_world (Ok sample_report)) sample_skill
              (say "what is the 3 day forecast") 3 _ sample_report _
              eq_refl eq_refl eq_refl) as (_ & Hs & Hn & _).
  split; [rewrite Hs; reflexivity|exact Hn].
Defined.

(** "fahrenheit or celsius" in the unit slot is Fahrenheit; "fahrenheit" in
    the utterance alone is nothing. *)
Lemma unit_override_rules_witness :
  exists i j,
    outcome (_get_intent_data (sample_world (Ok sample_report))
               sample_message_both_units) sample_skill = Ok (Some i)
    /\ wc_settings (config i) !! "units" = Some "imperial"
    /\ outcome (_get_intent_data (sample_world (Ok sample_report))
                  (say "what is the temperature in fahrenheit")) sample_skill
       = Ok (Some j)
    /\ config j = effective_config sample_skill
                    (Some (say "what is the temperature in fahrenheit")).
Proof.
  eexists. eexists.
  split; [reflexivity|]. split.
  - apply (unit_override_rules (sample_world (Ok sample_report)) sample_skill
             sample_message_both_units _ eq_refl) with (u := "fahrenheit or celsius");
      [reflexivity|discriminate|reflexivity|reflexivity].
  - split; [reflexivity|].
    apply (unit_override_rules (sample_world (Ok sample_report)) sample_skill
             (say "what is the temperature in fahrenheit") _ eq_refl).
    left. reflexivity.
Defined.
